(** * AI call survey agent: the two Flask programs, [server.py] and [forUI.py]

    A shallow embedding of the webhook handlers ([/voice], [/gather]), the
    scheduling endpoint ([/api/schedule]), the module initialisation and the
    scheduled-call dispatchers of both programs, followed by the properties
    the specification states about them.

    Conventions.
    - A Python [str] is a Rocq [string], the bytes of its UTF-8 encoding;
      its characters are read back with [utf8_next].
    - A Python [dict] is a stdpp [gmap]; [d.get(k)] is [d !! k].
    - Whatever comes from outside the process is an argument: the fields of
      a request, the text the language model returned (or [None] when the
      [try] block around it raised), how each request to the telephony
      provider and to Firestore ends, the current time already formatted.
    - Informational [print]s are left out; the prints of the [except]
      branches are kept as [Log] events. *)

From Stdlib Require Import ZArith Ascii String List Lia.
From stdpp Require Import base option list sorting gmap strings fin_maps.

Import ListNotations.
Local Open Scope string_scope.
Local Open Scope list_scope.

Set Warnings "-register-all".

(* ===================================================================== *)
(** * Python values and text *)
(* ===================================================================== *)

(** A value as [request.json] produces it and as Firestore stores it.
    JSON numbers are kept as integers. *)
Inductive value : Type :=
| VNull
| VBool (b : bool)
| VInt (z : Z)
| VStr (s : string)
| VList (l : list value)
| VDict (l : list (string * value)).

(** Python truthiness, as [if not x] and [if x] test it. *)
Definition truthy (v : value) : bool :=
  match v with
  | VNull => false
  | VBool b => b
  | VInt z => negb (z =? 0)%Z
  | VStr s => negb (String.eqb s "")
  | VList l => negb (Nat.eqb (length l) 0)
  | VDict l => negb (Nat.eqb (length l) 0)
  end.

(** The first character of a string: its code point and the rest of the
    string.  [None] for the empty string and for bytes that are not the
    UTF-8 encoding of a character (the encoding of a Python [str] has
    none). *)
Definition continuation (c : ascii) : option N :=
  let b := N_of_ascii c in
  if ((128 <=? b) && (b <? 192))%N then Some (b - 128)%N else None.

Definition utf8_next (s : string) : option (N * string) :=
  match s with
  | EmptyString => None
  | String c1 s1 =>
      let b1 := N_of_ascii c1 in
      if (b1 <? 128)%N then Some (b1, s1)
      else if ((192 <=? b1) && (b1 <? 224))%N then
        match s1 with
        | String c2 s2 =>
            match continuation c2 with
            | Some x2 =>
                let cp := ((b1 - 192) * 64 + x2)%N in
                if (128 <=? cp)%N then Some (cp, s2) else None
            | None => None
            end
        | EmptyString => None
        end
      else if ((224 <=? b1) && (b1 <? 240))%N then
        match s1 with
        | String c2 (String c3 s3) =>
            match continuation c2, continuation c3 with
            | Some x2, Some x3 =>
                let cp := (((b1 - 224) * 64 + x2) * 64 + x3)%N in
                if ((2048 <=? cp) && negb ((55296 <=? cp) && (cp <? 57344)))%N
                then Some (cp, s3) else None
            | _, _ => None
            end
        | _ => None
        end
      else if ((240 <=? b1) && (b1 <? 248))%N then
        match s1 with
        | String c2 (String c3 (String c4 s4)) =>
            match continuation c2, continuation c3, continuation c4 with
            | Some x2, Some x3, Some x4 =>
                let cp := ((((b1 - 240) * 64 + x2) * 64 + x3) * 64 + x4)%N in
                if ((65536 <=? cp) && (cp <? 1114112))%N
                then Some (cp, s4) else None
            | _, _, _ => None
            end
        | _ => None
        end
      else None
  end.

(** [str.isspace] for one character, the blanks [str.strip] removes: TAB
    to CR, FS to US, the space, NEL (U+0085), the no-break space
    (U+00A0), and U+1680, U+2000 to U+200A, U+2028, U+2029, U+202F,
    U+205F and U+3000. *)
Definition py_isspace (cp : N) : bool :=
  (((9 <=? cp) && (cp <=? 13)) || ((28 <=? cp) && (cp <=? 32))
   || (cp =? 133) || (cp =? 160) || (cp =? 5760)
   || ((8192 <=? cp) && (cp <=? 8202))
   || (cp =? 8232) || (cp =? 8233) || (cp =? 8239) || (cp =? 8287)
   || (cp =? 12288))%N.

(** The string without its first character, when that character is a
    blank. *)
Definition blank_prefix (s : string) : option string :=
  match utf8_next s with
  | Some (cp, r) => if py_isspace cp then Some r else None
  | None => None
  end.

(** [s.lstrip()]: at most [fuel] blanks are removed, and a string has no
    more characters than bytes. *)
Fixpoint lstrip_from (fuel : nat) (s : string) : string :=
  match fuel with
  | O => s
  | S n =>
      match blank_prefix s with
      | Some r => lstrip_from n r
      | None => s
      end
  end.

Definition lstrip (s : string) : string := lstrip_from (String.length s) s.

(** [s.rstrip()]: the string is cut where what is left is blanks only. *)
Fixpoint rstrip (s : string) : string :=
  match s with
  | EmptyString => EmptyString
  | String c s' =>
      if String.eqb (lstrip s) EmptyString then EmptyString
      else String c (rstrip s')
  end.

(** [s.strip()] *)
Definition strip (s : string) : string := rstrip (lstrip s).

(** [not s] for a string. *)
Definition is_empty (s : string) : bool := String.eqb s "".

(* ===================================================================== *)
(** * Conversation turns and voice-response documents *)
(* ===================================================================== *)

(** [{"role": r, "content": c}] *)
Record message : Type := Message { role : string; content : string }.

Abbreviation history := (list message).

(** The verbs of a TwiML document, in document order.  Every [Gather] of
    both programs has [input="speech"], [method="POST"] and
    [speech_timeout="auto"]; its action, its timeout and the texts said
    inside it are kept. *)
Inductive verb : Type :=
| Pause (seconds : Z)
| Say (text : string)
| Redirect (url : string)
| Gather (action : string) (timeout : Z) (says : list string).

Abbreviation twiml := (list verb).

(** What a view function hands to Flask: a voice-response document, or an
    exception that nothing catches. *)
Inductive exn : Type :=
| KeyError
| TypeError
| ValueError
| GroqError
| SystemExit (code : Z)
| Exception (msg : string).

Inductive response : Type :=
| Document (doc : twiml)
| Uncaught (e : exn).

(** Flask answers 200 for a returned response and 500 for an exception
    that escapes the view. *)
Definition http_status (r : response) : Z :=
  match r with
  | Document _ => 200
  | Uncaught _ => 500
  end.

(** The verbs that make a request: a [Gather] that hears speech posts it
    to its action, a [Redirect] fetches its URL.
    [holds_gather_or_redirect] tells that a document holds one of them,
    and no more; what the call does with the document depends on the
    caller, see [when_spoken] and [when_silent]. *)
Definition is_gather_or_redirect (v : verb) : bool :=
  match v with
  | Gather _ _ _ | Redirect _ => true
  | Pause _ | Say _ => false
  end.

Definition holds_gather_or_redirect (r : response) : bool :=
  match r with
  | Document doc => existsb is_gather_or_redirect doc
  | Uncaught _ => false
  end.

(** What the telephony provider does with a document.  The verbs run in
    order.  A [Gather] that hears speech posts it to its action and the
    rest of the document is dropped; one that hears nothing until its
    timeout is followed by the next verb.  A [Redirect] fetches its URL.
    The call is hung up at the end of the document. *)
Inductive next_step : Type :=
| NextRequest (url : string)
| HangUp.

(** The caller speaks at the first [Gather]. *)
Fixpoint when_spoken (d : twiml) : next_step :=
  match d with
  | [] => HangUp
  | Gather action _ _ :: _ => NextRequest action
  | Redirect url :: _ => NextRequest url
  | (Pause _ | Say _) :: d' => when_spoken d'
  end.

(** The caller says nothing. *)
Fixpoint when_silent (d : twiml) : next_step :=
  match d with
  | [] => HangUp
  | Redirect url :: _ => NextRequest url
  | (Pause _ | Say _ | Gather _ _ _) :: d' => when_silent d'
  end.

(** The form fields of a webhook request. *)
Record request : Type := Request {
  CallSid : option string;
  SpeechResult : option string
}.

(** One delivery of a webhook.  [completion] is the text the [try] block
    of the reply generator obtained from the provider, [None] when
    anything in that block raised. *)
Inductive webhook : Type :=
| OnVoice (req : request)
| OnGather (req : request) (completion : option string).

(** Roles of the turns, and the checks the specification makes on a
    history. *)
Definition is_system (m : message) : bool := String.eqb (role m) "system".
Definition is_user (m : message) : bool := String.eqb (role m) "user".
Definition is_assistant (m : message) : bool := String.eqb (role m) "assistant".

(** Every user turn is immediately preceded by a system or an assistant
    turn.  [prev] is the turn before the head of the list. *)
Fixpoint alternates_from (prev : option message) (h : history) : bool :=
  match h with
  | [] => true
  | m :: h' =>
      (if is_user m
       then match prev with
            | Some p => is_system p || is_assistant p
            | None => false
            end
       else true) && alternates_from (Some m) h'
  end.

Definition alternates (h : history) : bool := alternates_from None h.

Definition head_is_system (h : history) : bool :=
  match h with
  | m :: _ => is_system m
  | [] => false
  end.

(* ===================================================================== *)
(** * The collection [scheduledCalls] and the outbound call trigger *)
(* ===================================================================== *)

(** A Firestore document is a dictionary of fields; the collection maps
    the identifier of each document to its fields. *)
Abbreviation doc := (gmap string value).
Abbreviation store := (gmap string doc).

(** [d.get(k)]: Python's [None] for an absent key. *)
Definition py_get (d : doc) (k : string) : value := default VNull (d !! k).

(** How the request to the telephony provider ends: the call is accepted,
    the provider answers with an error status, or the request itself
    fails.  The client library of [server.py] raises in the last two
    cases, [requests.post] of [forUI.py] in the last only.  A request to
    Firestore (the query of a cycle, an update) is served or raises. *)
Inductive outcome : Type := Initiated | Rejected | Unreachable.

(** What a poll cycle does to the outside world, in order.  [Trigger]
    stands for the call of [make_call] made for the document [id]. *)
Inductive event : Type :=
| Trigger (id : string) (phone : value) (o : outcome)
| Update (id : string) (status : string)
| Log (msg : string).

(** The state a dispatcher runs in: the collection, what has happened so
    far, and how many requests the process has made to the outside, to
    the telephony provider and to Firestore together.  The request
    number [n] ends as [telephony n] decides when it is a call, and is
    served by Firestore when [firestore n] is [true]. *)
Record world : Type := World {
  tasks : store;
  trace : list event;
  requests : nat
}.

Definition emit (e : event) (w : world) : world :=
  World (tasks w) (trace w ++ [e]) (requests w).

(** The world after one more request that changed nothing. *)
Definition asked (w : world) : world :=
  World (tasks w) (trace w) (S (requests w)).

(** [.update({"status": "processed"})] on the document [id], which the
    collection holds (the loops update documents their query returned):
    the world after the request, and whether it returned ([false]: it
    raised and the document is as it was). *)
Definition mark_processed (firestore : nat -> bool) (id : string) (w : world)
  : world * bool :=
  if firestore (requests w)
  then (World (alter (insert "status" (VStr "processed")) id (tasks w))
              (trace w ++ [Update id "processed"]) (S (requests w)), true)
  else (asked w, false).

(** [for doc in docs: body] over a list, inside a [try]: the body returns
    the world and whether it returned normally; an exception leaves the
    loop. *)
Fixpoint for_each (body : world -> string * doc -> world * bool)
    (docs : list (string * doc)) (w : world) : world * bool :=
  match docs with
  | [] => (w, true)
  | p :: rest =>
      let '(w1, returned) := body w p in
      if returned then for_each body rest w1 else (w1, false)
  end.

(** The same loop over the stream of a query, whose documents are [docs].
    Every step of the iteration reads from the stream, the first one
    sends the query: each is a request to Firestore and may raise, the
    one that finds the end of the stream too. *)
Fixpoint for_each_streamed (firestore : nat -> bool)
    (body : world -> string * doc -> world * bool)
    (docs : list (string * doc)) (w : world) : world * bool :=
  if firestore (requests w)
  then match docs with
       | [] => (asked w, true)
       | p :: rest =>
           let '(w1, returned) := body (asked w) p in
           if returned then for_each_streamed firestore body rest w1 else (w1, false)
       end
  else (asked w, false).

Definition scheduled_at (d : doc) : string :=
  match d !! "scheduledAt" with
  | Some (VStr s) => s
  | _ => ""
  end.

(** [.where("status", "==", "pending").where("scheduledAt", "<=", now_iso)]:
    only a string compares with the string [now_iso], byte by byte. *)
Definition is_due (now_iso : string) (d : doc) : bool :=
  match d !! "status", d !! "scheduledAt" with
  | Some (VStr st), Some (VStr at_) =>
      String.eqb st "pending" && String.leb at_ now_iso
  | _, _ => false
  end.

(** The order of the result: by [scheduledAt], then by identifier. *)
Definition due_leb (p q : string * doc) : bool :=
  match String.compare (scheduled_at p.2) (scheduled_at q.2) with
  | Lt => true
  | Gt => false
  | Eq => String.leb p.1 q.1
  end.

Definition due_order (p q : string * doc) : Prop := Is_true (due_leb p q).

#[local] Instance due_order_dec p q : Decision (due_order p q) := _.

Definition query_due (now_iso : string) (s : store) : list (string * doc) :=
  merge_sort due_order
    (filter (fun p : string * doc => is_due now_iso p.2) (map_to_list s)).

(** The query of a cycle read as a whole ([list(docs)]), as one request:
    the documents it returns, or [None] when it raises. *)
Definition query (firestore : nat -> bool) (now_iso : string) (w : world)
  : world * option (list (string * doc)) :=
  (asked w,
   if firestore (requests w) then Some (query_due now_iso (tasks w)) else None).

(** The number of times the trigger was invoked for the document [id]. *)
Definition is_trigger_of (id : string) (e : event) : bool :=
  match e with
  | Trigger id' _ _ => String.eqb id id'
  | _ => false
  end.

Definition dispatches (id : string) (t : list event) : nat :=
  length (List.filter (is_trigger_of id) t).


Definition status_of (s : store) (id : string) : option value :=
  s !! id ≫= fun d => d !! "status".



(** What [make_call] of [server.py] prints after the trigger. *)
Definition call_log (o : outcome) : list event :=
  match o with
  | Initiated => []
  | Rejected | Unreachable => [Log "Error making call"]
  end.

(* ===================================================================== *)
(** * Module initialisation *)
(* ===================================================================== *)

(** How the import of the program ends: it goes on to serve on a port,
    or an exception (or [exit]) stops it before any request is served.
    The clients are built from values read from the environment; what
    they do with a value that is present (reading the credentials file,
    say) is outside the model. *)
Inductive boot : Type :=
| Serving (port : Z)
| Refused (e : exn).

(** [not x] fails for a variable that is set and not empty. *)
Definition present (o : option string) : bool :=
  match o with
  | Some s => negb (is_empty s)
  | None => false
  end.

(** [int(s)] for a string.  A character below U+007F stands for itself;
    above, a blank counts as a space and a decimal digit of any script
    (category Nd of Unicode 14.0, which come in runs of ten) as the
    ASCII digit of its value.  Then: blanks (TAB to CR and the space), a
    sign, digits with single underscores between them, blanks.  More
    than 4300 digits are refused. *)
Inductive token : Type :=
| TSpace
| TPlus
| TMinus
| TUnder
| TDigit (d : Z)
| TOther.

Definition decimal_zeros : list N :=
  [48; 1632; 1776; 1984; 2406; 2534; 2662; 2790; 2918; 3046; 3174; 3302;
   3430; 3558; 3664; 3792; 3872; 4160; 4240; 6112; 6160; 6470; 6608; 6784;
   6800; 6992; 7088; 7232; 7248; 42528; 43216; 43264; 43472; 43504; 43600;
   44016; 65296; 66720; 68912; 69734; 69872; 69942; 70096; 70384; 70736;
   70864; 71248; 71360; 71472; 71904; 72016; 72784; 73040; 73120; 92768;
   92864; 93008; 120782; 120792; 120802; 120812; 120822; 123200; 123632;
   125264; 130032]%N.

Definition decimal_of (cp : N) : option Z :=
  match List.find (fun z => (z <=? cp) && (cp <? z + 10))%N decimal_zeros with
  | Some z => Some (Z.of_N (cp - z))
  | None => None
  end.

Definition token_of (cp : N) : token :=
  if (cp <? 127)%N then
    if (((9 <=? cp) && (cp <=? 13)) || (cp =? 32))%N then TSpace
    else if (cp =? 43)%N then TPlus
    else if (cp =? 45)%N then TMinus
    else if (cp =? 95)%N then TUnder
    else if ((48 <=? cp) && (cp <=? 57))%N then TDigit (Z.of_N (cp - 48))
    else TOther
  else if py_isspace cp then TSpace
  else match decimal_of cp with
       | Some d => TDigit d
       | None => TOther
       end.

Fixpoint tokens_from (fuel : nat) (s : string) : list token :=
  match fuel with
  | O => []
  | S n =>
      match s with
      | EmptyString => []
      | _ =>
          match utf8_next s with
          | Some (cp, r) => token_of cp :: tokens_from n r
          | None => [TOther]
          end
      end
  end.

Definition tokens (s : string) : list token := tokens_from (String.length s) s.

Fixpoint drop_spaces (l : list token) : list token :=
  match l with
  | TSpace :: l' => drop_spaces l'
  | _ => l
  end.

(** The digits of the literal, with their value and their number;
    [after_digit] tells that the token before was a digit. *)
Fixpoint int_digits (l : list token) (acc : Z) (count : nat) (after_digit : bool)
  : option (Z * nat) :=
  match l with
  | [] => if after_digit then Some (acc, count) else None
  | TDigit d :: l' => int_digits l' (10 * acc + d)%Z (S count) true
  | TUnder :: l' => if after_digit then int_digits l' acc count false else None
  | TSpace :: l' =>
      if after_digit
      then match drop_spaces l' with
           | [] => Some (acc, count)
           | _ => None
           end
      else None
  | _ => None
  end.

(** [None] stands for [ValueError]. *)
Definition py_int (s : string) : option Z :=
  let l := drop_spaces (tokens s) in
  let '(negative, digits) :=
    match l with
    | TPlus :: r => (false, r)
    | TMinus :: r => (true, r)
    | _ => (false, l)
    end in
  match int_digits digits 0 0 false with
  | Some (v, n) =>
      if (4300 <? n)%nat then None else Some (if negative then (- v)%Z else v)
  | None => None
  end.

(** [int(os.getenv("PORT", 5000))], with the reading of [int] on strings
    as an argument. *)
Definition read_port_with (int_of : string -> option Z) (env : gmap string string)
  : option Z :=
  match env !! "PORT" with
  | None => Some 5000%Z
  | Some s => int_of s
  end.

(* ===================================================================== *)
(** * [server.py] *)
(* ===================================================================== *)

Module Server.

(** ** Module initialisation *)

(** The module body up to [app.run]: the five variables are tested
    together, then the path of the Firebase credentials goes through
    [os.path.abspath], which raises [TypeError] on [None]. *)
Definition startup_with (int_of : string -> option Z) (env : gmap string string)
  : boot :=
  match read_port_with int_of env with
  | None => Refused ValueError
  | Some PORT =>
      if negb (forallb present
                 [env !! "TWILIO_ACCOUNT_SID"; env !! "TWILIO_AUTH_TOKEN";
                  env !! "TWILIO_PHONE"; env !! "PUBLIC_URL";
                  env !! "GROQ_API_KEY"])
      then Refused (SystemExit 1)
      else
        match env !! "GOOGLE_APPLICATION_CREDENTIALS" with
        | None => Refused TypeError
        | Some _ => Serving PORT
        end
  end.

Definition startup (env : gmap string string) : boot := startup_with py_int env.

(** ** The call session orchestrator *)

Definition SYSTEM_PROMPT : string := "
You are ARJUN, a friendly Indian male customer-support survey assistant.

Your role:
- Call a customer and collect meaningful feedback.
- Speak naturally in short, conversational sentences.
- Ask ONE question at a time.
- Adapt your questions based on the product they purchased.

Conversation Flow (Dynamic):
1. Start by asking if they recently purchased a product.
2. Ask what product they bought.
3. Detect the product type and automatically choose relevant follow-up questions.
4. Ask 4–6 short, meaningful questions related to THAT product.
5. Keep the tone warm, helpful, and human.
6. End politely with a thank you.

Product Understanding Rules:
- Identify the product category from the user's words.
- Ask questions suitable for that category.
- Examples:
    • If they bought a dog → ask about dog chain availability, training, food quality, health, vaccinations, grooming, behaviour.
    • If they bought electronics → ask about performance, battery, heating, installation experience.
    • If they bought clothing → ask about size, material, comfort, fitting, delivery.
    • If they bought groceries → ask about freshness, packaging, taste.
    • If they bought home appliances → ask about installation, noise, energy usage, ease of use.
    • If they bought cosmetics → ask about fragrance, sensitivity, texture, results.

When they answer:
- Briefly acknowledge what they said.
- Continue the survey with the next relevant question.
- Never ask unrelated or generic questions.
- Never ask multiple questions at once.

If the user says they didn’t buy anything:
- Apologize politely and end the call early.

Speak like a friendly Indian support agent.
Keep everything short, simple, and phone-friendly.
".

Definition system_turn : message := Message "system" SYSTEM_PROMPT.

Definition FALLBACK : string :=
  "Sorry, I am having trouble right now. We will contact you again later.".

(** [h[-10:]] *)
Definition last10 (h : history) : history := drop (length h - 10) h.

(** [generate_ai_reply(call_sid, user_text)] on the dictionary
    [conversations]; returns the new dictionary and the reply. *)
Definition generate_ai_reply (conversations : gmap string history)
    (call_sid user_text : string) (completion : option string)
  : gmap string history * string :=
  let h0 := match conversations !! call_sid with
            | Some h => h
            | None => [system_turn]
            end in
  let h1 := h0 ++ [Message "user" user_text] in
  let reply := match completion with
               | Some text => strip text
               | None => FALLBACK
               end in
  let h2 := h1 ++ [Message "assistant" reply] in
  (<[call_sid := last10 h2]> conversations, reply).

(** [request.form.get("CallSid", "unknown")] *)
Definition call_sid_of (req : request) : string := default "unknown" (CallSid req).

Definition GREETING : string :=
  "Hello, this is Arjun from customer support. I would like to ask a few quick questions about your experience with our product. Did you recently buy our product?".

(** [POST /voice] *)
Definition voice (conversations : gmap string history) (req : request)
  : gmap string history * response :=
  let call_sid := call_sid_of req in
  let conversations' :=
    match conversations !! call_sid with
    | Some _ => conversations
    | None => <[call_sid := [system_turn]]> conversations
    end in
  (conversations',
   Document [Pause 1;
             Gather "/gather" 8 [GREETING];
             Say "I did not hear anything. Let me try once more.";
             Redirect "/voice"]).

Definition REPROMPT : twiml :=
  [Say "I did not catch that. Please say it again."; Redirect "/voice"].

(** [POST /gather] *)
Definition gather (conversations : gmap string history) (req : request)
    (completion : option string) : gmap string history * response :=
  let call_sid := call_sid_of req in
  let user_text := default "" (SpeechResult req) in
  if is_empty (strip user_text) then (conversations, Document REPROMPT)
  else
    let '(conversations', reply) :=
      generate_ai_reply conversations call_sid user_text completion in
    (conversations',
     Document [Gather "/gather" 8 [reply];
               Say "I did not hear anything. I will end this call now. Thank you for your time. Goodbye."]).

Definition handle (conversations : gmap string history) (w : webhook)
  : gmap string history * response :=
  match w with
  | OnVoice req => voice conversations req
  | OnGather req completion => gather conversations req completion
  end.

(** The webhooks of a list served one after the other; the responses come
    back in the order of the requests. *)
Fixpoint serve (conversations : gmap string history) (ws : list webhook)
  : gmap string history * list response :=
  match ws with
  | [] => (conversations, [])
  | w :: ws' =>
      let '(c1, r) := handle conversations w in
      let '(c2, rs) := serve c1 ws' in
      (c2, r :: rs)
  end.

(** ** The scheduled call dispatcher *)

(** [make_call(phone_number)]: the [except] branch prints and the
    function returns normally either way.  [id] only labels the event
    with the document the call is made for. *)
Definition make_call (telephony : nat -> outcome) (id : string) (phone : value)
    (w : world) : world :=
  let o := telephony (requests w) in
  let w1 := World (tasks w) (trace w ++ [Trigger id phone o]) (S (requests w)) in
  match o with
  | Initiated => w1
  | Rejected | Unreachable => emit (Log "Error making call") w1
  end.

(** The body of [for doc in docs]. *)
Definition dispatch (telephony : nat -> outcome) (firestore : nat -> bool)
    (w : world) (p : string * doc) : world * bool :=
  let data := p.2 in
  let phone := py_get data "phoneNumber" in
  if truthy phone
  then mark_processed firestore p.1 (make_call telephony p.1 phone w)
  else (w, true).

(** The loop over the stream of the query, whose documents are [docs],
    and the [except] branch of the cycle when the loop is left by an
    exception. *)
Definition dispatch_all (telephony : nat -> outcome) (firestore : nat -> bool)
    (docs : list (string * doc)) (w : world) : world :=
  let '(w1, completed) :=
    for_each_streamed firestore (dispatch telephony firestore) docs w in
  if completed then w1 else emit (Log "Error in cron job") w1.

(** [check_scheduled_calls()], at the time [now_iso].  [.stream()] sends
    nothing: the query is sent when the loop asks for the first
    document, and its documents are those that are due at that time. *)
Definition check_scheduled_calls (telephony : nat -> outcome)
    (firestore : nat -> bool) (now_iso : string) (w : world) : world :=
  dispatch_all telephony firestore (query_due now_iso (tasks w)) w.

(** The scheduler runs the job once per entry of [nows]. *)
Definition run (telephony : nat -> outcome) (firestore : nat -> bool)
    (nows : list string) (w : world) : world :=
  foldl (fun w now_iso => check_scheduled_calls telephony firestore now_iso w)
        w nows.

End Server.

(* ===================================================================== *)
(** * [forUI.py] *)
(* ===================================================================== *)

Module ForUI.

(** ** Module initialisation *)

(** The module body up to [app.run]: only [PUBLIC_URL] is tested;
    assigning [None] to an entry of [os.environ] raises [TypeError], and
    the constructor of the Groq client raises when it is given no key and
    finds none in the environment. *)
Definition startup_with (int_of : string -> option Z) (env : gmap string string)
  : boot :=
  match read_port_with int_of env with
  | None => Refused ValueError
  | Some PORT =>
      if negb (present (env !! "PUBLIC_URL"))
      then Refused (Exception "❌ PUBLIC_URL missing in .env — start ngrok and add PUBLIC_URL")
      else
        match env !! "GOOGLE_APPLICATION_CREDENTIALS" with
        | None => Refused TypeError
        | Some _ =>
            match env !! "GROQ_API_KEY" with
            | None => Refused GroqError
            | Some _ => Serving PORT
            end
        end
  end.

Definition startup (env : gmap string string) : boot := startup_with py_int env.

(** ** [POST /api/schedule] *)



(** ** The call session orchestrator *)

Definition system_turn : message :=
  Message "system"
    "You are Arjun, a friendly, calm Indian male assistant. Speak naturally and briefly. You are conducting a simple survey.".

Definition FALLBACK : string := "Sorry, I am facing a technical issue right now.".

Definition GREETING : string :=
  "Hello! This is Arjun from customer care. Did you recently purchase a product from us?".

(** [POST /voice].  [request.values.get("CallSid")] is [None] when the
    field is absent, and [None] is a key of the dictionary like any
    other. *)
Definition voice (conversations : gmap (option string) history) (req : request)
  : gmap (option string) history * response :=
  let call_sid := CallSid req in
  let conversations' :=
    match conversations !! call_sid with
    | Some _ => conversations
    | None => <[call_sid := [system_turn]]> conversations
    end in
  (conversations',
   Document [Gather "/gather" 5 [GREETING];
             Say "I didn’t hear anything. Goodbye."]).

Definition REPROMPT : twiml :=
  [Say "Sorry, I didn't catch that. Let’s try again.";
   Gather "/gather" 5 ["Could you repeat that?"]].

(** [POST /gather].  [conversations[call_sid]] raises [KeyError] for a key
    the dictionary does not hold; the assistant turn is appended inside
    the [try] block, after the provider has answered.  [completion] is
    the value of [llm.choices[0].message["content"]], and [None] when
    the block raises: when the request fails, and also when the message
    is an object of the client library, which has no subscript
    ([TypeError]); with such a client every [completion] is [None]. *)
Definition gather (conversations : gmap (option string) history) (req : request)
    (completion : option string) : gmap (option string) history * response :=
  let call_sid := CallSid req in
  let user_speech := strip (default "" (SpeechResult req)) in
  if is_empty user_speech then (conversations, Document REPROMPT)
  else
    match conversations !! call_sid with
    | None => (conversations, Uncaught KeyError)
    | Some h =>
        let h1 := h ++ [Message "user" user_speech] in
        let '(h2, reply_text) :=
          match completion with
          | Some text => (h1 ++ [Message "assistant" text], text)
          | None => (h1, FALLBACK)
          end in
        (<[call_sid := h2]> conversations,
         Document [Gather "/gather" 5 [reply_text];
                   Say "I did not hear anything. Goodbye."])
    end.

Definition handle (conversations : gmap (option string) history) (w : webhook)
  : gmap (option string) history * response :=
  match w with
  | OnVoice req => voice conversations req
  | OnGather req completion => gather conversations req completion
  end.

Fixpoint serve (conversations : gmap (option string) history) (ws : list webhook)
  : gmap (option string) history * list response :=
  match ws with
  | [] => (conversations, [])
  | w :: ws' =>
      let '(c1, r) := handle conversations w in
      let '(c2, rs) := serve c1 ws' in
      (c2, r :: rs)
  end.

(** ** The scheduled call dispatcher *)

(** [make_call(phone)]: returns the world and whether it returned
    normally; [requests.post] raises when the request itself fails.
    [id] only labels the event with the document the call is made for. *)
Definition make_call (telephony : nat -> outcome) (id : string) (phone : value)
    (w : world) : world * bool :=
  let o := telephony (requests w) in
  let w1 := World (tasks w) (trace w ++ [Trigger id phone o]) (S (requests w)) in
  match o with
  | Initiated | Rejected => (w1, true)
  | Unreachable => (w1, false)
  end.

(** The body of [for doc in pending]: [data["phoneNumber"]] raises
    [KeyError] for a document without the field. *)
Definition dispatch (telephony : nat -> outcome) (firestore : nat -> bool)
    (w : world) (p : string * doc) : world * bool :=
  match p.2 !! "phoneNumber" with
  | None => (w, false)
  | Some phone =>
      let '(w1, returned) := make_call telephony p.1 phone w in
      if returned then mark_processed firestore p.1 w1 else (w1, false)
  end.

(** The loop over [pending], and the [except] branch of the cycle when
    the loop is left by an exception. *)
Definition dispatch_all (telephony : nat -> outcome) (firestore : nat -> bool)
    (pending : list (string * doc)) (w : world) : world :=
  let '(w1, completed) := for_each (dispatch telephony firestore) pending w in
  if completed then w1 else emit (Log "Cron error") w1.

(** One turn of [while True] in [cron_job()], at the time [now_iso].
    [pending = list(docs)] reads the whole result before the loop. *)
Definition cron_cycle (telephony : nat -> outcome) (firestore : nat -> bool)
    (now_iso : string) (w : world) : world :=
  match query firestore now_iso w with
  | (w1, Some pending) => dispatch_all telephony firestore pending w1
  | (w1, None) => emit (Log "Cron error") w1
  end.

Definition run (telephony : nat -> outcome) (firestore : nat -> bool)
    (nows : list string) (w : world) : world :=
  foldl (fun w now_iso => cron_cycle telephony firestore now_iso w) w nows.

End ForUI.

(* ===================================================================== *)
(** * Shapes of histories, documents and collections *)
(* ===================================================================== *)

Definition request_of (w : webhook) : request :=
  match w with
  | OnVoice req => req
  | OnGather req _ => req
  end.

(** A list of turns made of pairs: a user turn, then an assistant turn. *)
Fixpoint paired (h : history) : bool :=
  match h with
  | [] => true
  | u :: rest =>
      match rest with
      | [] => false
      | a :: t => is_user u && is_assistant a && paired t
      end
  end.

(** Every user turn is immediately followed by an assistant turn. *)
Fixpoint answered (h : history) : bool :=
  match h with
  | [] => true
  | m :: t =>
      (if is_user m
       then match t with
            | a :: _ => is_assistant a
            | [] => false
            end
       else true) && answered t
  end.

(** Every assistant turn is immediately preceded by a user turn.  [prev]
    is the turn before the head of the list. *)
Fixpoint replies_to_user (prev : option message) (h : history) : bool :=
  match h with
  | [] => true
  | m :: t =>
      (if is_assistant m
       then match prev with
            | Some p => is_user p
            | None => false
            end
       else true) && replies_to_user (Some m) t
  end.

(** A voice-response document whose [Gather]s post to [/gather] and whose
    [Redirect]s go to [/voice]. *)
Definition on_route (v : verb) : bool :=
  match v with
  | Gather action _ _ => String.eqb action "/gather"
  | Redirect url => String.eqb url "/voice"
  | Pause _ | Say _ => true
  end.

Definition on_routes (r : response) : bool :=
  match r with
  | Document d => forallb on_route d
  | Uncaught _ => false
  end.

(** The document [d] after [.update({"status": "processed"})]. *)
Definition processed (d : doc) : doc := <["status" := VStr "processed"]> d.

(** The world after the call for the document [id] ended as [o] and
    left the prints [logs], and the update that follows was served:
    two requests more. *)
Definition called_and_marked (id : string) (phone : value) (o : outcome)
    (logs : list event) (w : world) : world :=
  World (alter (insert "status" (VStr "processed")) id (tasks w))
        (trace w ++ Trigger id phone o :: logs ++ [Update id "processed"])
        (S (S (requests w))).

(** The same when the update raised; [logs] are the prints up to the
    end of the cycle. *)
Definition called_not_marked (id : string) (phone : value) (o : outcome)
    (logs : list event) (w : world) : world :=
  World (tasks w) (trace w ++ Trigger id phone o :: logs) (S (S (requests w))).

(** The collection [s'] has the documents of [s], each one as it was or
    with its status set to [processed], and no other. *)
Definition only_marks (s s' : store) : Prop :=
  forall id, s' !! id = s !! id \/ s' !! id = processed <$> s !! id.

(** The documents of the result of a query that the loop of [server.py]
    calls. *)
Definition callable (l : list (string * doc)) : list (string * doc) :=
  filter (fun p : string * doc => truthy (py_get p.2 "phoneNumber") = true) l.

(** The histories [server.py] keeps: the system turn and at most four
    pairs, or five pairs without the system turn. *)
Definition server_shaped (h : history) : Prop :=
  (exists t, h = Server.system_turn :: t /\ paired t = true /\ length h <= 9)
  \/ (paired h = true /\ length h = 10).

(** The histories [forUI.py] keeps: the system turn, then user and
    assistant turns, each assistant turn right after a user turn. *)
Definition forUI_shaped (h : history) : Prop :=
  exists turns,
    h = ForUI.system_turn :: turns
    /\ Forall (fun m => is_user m || is_assistant m = true) turns
    /\ replies_to_user None h = true.

(* ===================================================================== *)
(** * Scenarios *)
(* ===================================================================== *)

(** U+00A0, the no-break space, and U+FF15, the fullwidth digit five,
    in UTF-8. *)
Definition NBSP : string := String "194"%char (String "160"%char "").
Definition FULLWIDTH_FIVE : string :=
  String "239"%char (String "188"%char (String "149"%char "")).

Definition voice_of (sid : string) : webhook := OnVoice (Request (Some sid) None).

Definition silence_of (sid : string) : webhook :=
  OnGather (Request (Some sid) (Some "")) None.

Definition speech_of (sid text : string) (completion : option string) : webhook :=
  OnGather (Request (Some sid) (Some text)) completion.

(** A call that is answered, then two silent results in a row. *)
Definition two_silences : list webhook :=
  [voice_of "CA1"; silence_of "CA1"; silence_of "CA1"].

(** A call that is answered, then five answered turns, with the replies
    [server.py] obtains from the provider. *)
Definition five_turns : list webhook :=
  [voice_of "CA1";
   speech_of "CA1" "yes" (Some "What did you buy?");
   speech_of "CA1" "a phone" (Some "How is the battery?");
   speech_of "CA1" "fine" (Some "Does it heat up?");
   speech_of "CA1" "no" (Some "Was it easy to set up?");
   speech_of "CA1" "yes" (Some "Thank you.")].

(** A call whose first answer meets a provider that fails. *)
Definition provider_down : list webhook :=
  [voice_of "CA2"; speech_of "CA2" "yes I did" None].

(** The same call, with a second answer that the provider serves and
    whose text the handler obtains. *)
Definition provider_down_then_up : list webhook :=
  provider_down ++ [speech_of "CA2" "a phone" (Some "How is the battery?")].

(** A call that is answered, then ten speech results for each of which
    the provider fails. *)
Definition ten_unanswered : list webhook :=
  voice_of "CA3" :: replicate 10 (speech_of "CA3" "hello" None).

(** A call that is answered, then two speech results for which the
    provider fails. *)
Definition provider_down_twice : list webhook :=
  provider_down ++ [speech_of "CA2" "a phone" None].

(** Every request to Firestore is served. *)
Definition reliable : nat -> bool := fun _ => true.



(** An environment with the public URL, the key of the language model and
    the Firebase credentials, and none of the three telephony variables. *)
Definition env_without_telephony : gmap string string :=
  {[ "PUBLIC_URL" := "https://example.ngrok-free.app";
     "GROQ_API_KEY" := "gsk_test";
     "GOOGLE_APPLICATION_CREDENTIALS" := "/srv/firebase.json" ]}.

Definition env_complete : gmap string string :=
  <[ "TWILIO_ACCOUNT_SID" := "AC0" ]>
    (<[ "TWILIO_AUTH_TOKEN" := "token" ]>
       (<[ "TWILIO_PHONE" := "+15550000000" ]> env_without_telephony)).

(** One task that is due at [NOW1], and a later poll at [NOW2]. *)
Definition NOW1 : string := "2024-01-02T00:00:00Z".
Definition NOW2 : string := "2024-01-02T00:01:00Z".

Definition due_task : doc :=
  {[ "phoneNumber" := VStr "+15551234567";
     "scheduledAt" := VStr "2024-01-01T00:00:00Z";
     "status" := VStr "pending";
     "createdAt" := VStr "2023-12-31T00:00:00" ]}.

Definition one_task : world := World {[ "task1" := due_task ]} [] 0.

(** Firestore raises at the third request of the process (in a first
    cycle on one due task: the query, the call, then the update) and
    serves the others. *)
Definition third_request_fails : nat -> bool := fun n => negb (Nat.eqb n 2).


(* ===================================================================== *)
(** * Properties of the call session orchestrators *)
(* ===================================================================== *)

(** ** Text and values *)

Example strip_both_ends : strip "  yes I did 	" = "yes I did".
Proof. reflexivity. Qed.

Example strip_blank : strip (String "010"%char " ") = "".
Proof. reflexivity. Qed.

(** The no-break space and U+3000, the ideographic space, are blanks;
    the letter U+00E0 is not. *)
Example strip_unicode_blanks :
  (strip NBSP, strip "à b　", strip (String.append NBSP "hello"))
  = ("", "à b", "hello").
Proof. vm_compute. reflexivity. Qed.

Example py_int_literals :
  (py_int " 50_00 ", py_int "-12", py_int "5__0", py_int "1_", py_int "",
   py_int "５０００", py_int (String.append NBSP "8080"), py_int "+ 1",
   py_int "0x10")
  = (Some 5000%Z, Some (-12)%Z, None, None, None,
     Some 5000%Z, Some 8080%Z, None, None).
Proof. vm_compute. reflexivity. Qed.

Example truthy_values :
  map truthy [VNull; VStr ""; VInt 0; VBool false; VList []; VStr "0"; VInt 7]
  = [false; false; false; false; false; true; true].
Proof. reflexivity. Qed.

(** Decoding reads a prefix of the string and does not look further. *)
Lemma utf8_next_shorter s cp r :
  utf8_next s = Some (cp, r) -> String.length r < String.length s.
Proof.
  unfold utf8_next. intros H.
  repeat (case_match; simplify_eq; try discriminate); simpl; lia.
Qed.

Lemma append_cons c s q :
  String.append (String c s) q = String c (String.append s q).
Proof. reflexivity. Qed.

Lemma utf8_next_append s cp r q :
  utf8_next s = Some (cp, r) ->
  utf8_next (String.append s q) = Some (cp, String.append r q).
Proof.
  unfold utf8_next. intros H.
  destruct s as [|c1 s1]; [discriminate|]. rewrite append_cons.
  cbv zeta in *.
  repeat match type of H with
         | context [if ?b then _ else _] => destruct b eqn:?
         | context [match ?s with EmptyString => _ | String _ _ => _ end] =>
             destruct s; rewrite ?append_cons
         | context [match continuation ?c with Some _ => _ | None => _ end] =>
             destruct (continuation c) eqn:?
         end; try discriminate; try by simplify_eq.
Qed.

Lemma blank_prefix_shorter s r :
  blank_prefix s = Some r -> String.length r < String.length s.
Proof.
  unfold blank_prefix. destruct (utf8_next s) as [[cp r']|] eqn:H; [|done].
  destruct (py_isspace cp); [|done]. intros [= <-]. by eapply utf8_next_shorter.
Qed.

Lemma blank_prefix_append s r q :
  blank_prefix s = Some r ->
  blank_prefix (String.append s q) = Some (String.append r q).
Proof.
  unfold blank_prefix. destruct (utf8_next s) as [[cp r']|] eqn:H; [|done].
  rewrite (utf8_next_append _ _ _ q H).
  destruct (py_isspace cp); [|done]. by intros [= <-].
Qed.

(** The fuel of [lstrip_from] is enough as soon as it is the length. *)
Lemma lstrip_from_fuel n : forall m s,
  String.length s <= n -> String.length s <= m ->
  lstrip_from n s = lstrip_from m s.
Proof.
  induction n as [|n IH]; intros m s Hn Hm.
  - destruct s; [|simpl in Hn; lia]. by destruct m.
  - destruct m as [|m].
    + destruct s; [done|simpl in Hm; lia].
    + simpl. destruct (blank_prefix s) as [r|] eqn:Hr; [|done].
      apply blank_prefix_shorter in Hr. apply IH; lia.
Qed.

Lemma lstrip_eq s :
  lstrip s = match blank_prefix s with
             | Some r => lstrip r
             | None => s
             end.
Proof.
  unfold lstrip. destruct s as [|c s']; [done|].
  cbn [String.length lstrip_from].
  destruct (blank_prefix (String c s')) as [r|] eqn:Hr; [|done].
  apply blank_prefix_shorter in Hr. simpl in Hr. apply lstrip_from_fuel; lia.
Qed.

Lemma lstrip_from_no_blank_prefix n : forall s,
  String.length s <= n -> blank_prefix (lstrip_from n s) = None.
Proof.
  induction n as [|n IH]; intros s Hn.
  - by destruct s; [|simpl in Hn; lia].
  - simpl. destruct (blank_prefix s) as [r|] eqn:Hr; [|done].
    apply blank_prefix_shorter in Hr. apply IH. lia.
Qed.

(** What [lstrip] returns does not begin with a blank, and a string that
    does not begin with a blank is left as it is. *)
Lemma lstrip_no_blank_prefix s : blank_prefix (lstrip s) = None.
Proof. by apply lstrip_from_no_blank_prefix. Qed.

Lemma lstrip_id s : blank_prefix s = None -> lstrip s = s.
Proof. intros H. by rewrite lstrip_eq, H. Qed.

(** A string of blanks in front of another is stripped with it. *)
Lemma lstrip_blank_append q : forall n s,
  String.length s <= n ->
  lstrip s = "" -> lstrip (String.append s q) = lstrip q.
Proof.
  induction n as [|n IH]; intros s Hn Hs.
  - by destruct s; [|simpl in Hn; lia].
  - rewrite lstrip_eq in Hs.
    destruct (blank_prefix s) as [r|] eqn:Hr.
    + rewrite (lstrip_eq (String.append s q)), (blank_prefix_append _ _ q Hr).
      apply blank_prefix_shorter in Hr. apply IH; [lia|done].
    + by subst s.
Qed.

(** [rstrip] cuts a string of blanks off the end. *)
Lemma rstrip_cut s :
  exists q, s = String.append (rstrip s) q /\ lstrip q = "".
Proof.
  induction s as [|c s IH]; [by exists ""|].
  cbn [rstrip]. destruct (String.eqb (lstrip (String c s)) "") eqn:He.
  - apply String.eqb_eq in He. by exists (String c s).
  - destruct IH as (q & Hq & Hb). exists q. split; [|done].
    rewrite append_cons. by rewrite <- Hq.
Qed.

Lemma rstrip_no_blank_prefix s :
  blank_prefix s = None -> blank_prefix (rstrip s) = None.
Proof.
  intros Hs. destruct (blank_prefix (rstrip s)) as [r|] eqn:Hr; [|done].
  destruct (rstrip_cut s) as (q & Hq & _).
  apply (blank_prefix_append _ _ q) in Hr. rewrite <- Hq in Hr. congruence.
Qed.

Lemma rstrip_idempotent s : rstrip (rstrip s) = rstrip s.
Proof.
  induction s as [|c s IH]; [done|].
  cbn [rstrip]. destruct (String.eqb (lstrip (String c s)) "") eqn:He; [done|].
  cbn [rstrip]. rewrite IH.
  destruct (String.eqb (lstrip (String c (rstrip s))) "") eqn:He'; [|done].
  apply String.eqb_eq in He'. apply String.eqb_neq in He. exfalso. apply He.
  destruct (rstrip_cut s) as (q & Hq & Hb).
  rewrite Hq at 1. rewrite <- append_cons.
  by rewrite (lstrip_blank_append q _ _ (Nat.le_refl _) He').
Qed.

(** Stripping again changes nothing. *)
Lemma strip_idempotent s : strip (strip s) = strip s.
Proof.
  unfold strip.
  rewrite (lstrip_id (rstrip (lstrip s))).
  - apply rstrip_idempotent.
  - apply rstrip_no_blank_prefix, lstrip_no_blank_prefix.
Qed.

Section ServeInvariant.

(** A property of the dictionary that every handler keeps is kept by
    any list of webhooks. *)

Lemma server_serve_invariant (P : gmap string history -> Prop) :
  (forall c w, P c -> P (Server.handle c w).1) ->
  forall ws c, P c -> P (Server.serve c ws).1.
Proof.
  intros Hstep ws. induction ws as [|w ws IH]; intros c Hc; simpl; [done|].
  destruct (Server.handle c w) as [c1 r] eqn:Hw.
  destruct (Server.serve c1 ws) as [c2 rs] eqn:Hs. simpl.
  specialize (Hstep c w Hc). rewrite Hw in Hstep. simpl in Hstep.
  specialize (IH c1 Hstep). by rewrite Hs in IH.
Qed.

Lemma forUI_serve_invariant (P : gmap (option string) history -> Prop) :
  (forall c w, P c -> P (ForUI.handle c w).1) ->
  forall ws c, P c -> P (ForUI.serve c ws).1.
Proof.
  intros Hstep ws. induction ws as [|w ws IH]; intros c Hc; simpl; [done|].
  destruct (ForUI.handle c w) as [c1 r] eqn:Hw.
  destruct (ForUI.serve c1 ws) as [c2 rs] eqn:Hs. simpl.
  specialize (Hstep c w Hc). rewrite Hw in Hstep. simpl in Hstep.
  specialize (IH c1 Hstep). by rewrite Hs in IH.
Qed.

End ServeInvariant.

Lemma is_empty_true s : is_empty s = true <-> s = "".
Proof. unfold is_empty. apply String.eqb_eq. Qed.

Lemma is_empty_false s : is_empty s = false <-> s <> "".
Proof. unfold is_empty. apply String.eqb_neq. Qed.

Lemma last10_length h : length (Server.last10 h) <= 10.
Proof. unfold Server.last10. rewrite length_drop. lia. Qed.

(** What [generate_ai_reply] leaves in the dictionary. *)
Lemma generate_ai_reply_history convs sid text completion :
  let reply := match completion with
               | Some t => strip t
               | None => Server.FALLBACK
               end in
  Server.generate_ai_reply convs sid text completion
  = (<[sid := Server.last10 (default [Server.system_turn] (convs !! sid)
                             ++ [Message "user" text; Message "assistant" reply])]> convs,
     reply).
Proof.
  unfold Server.generate_ai_reply. simpl.
  destruct (convs !! sid) as [h|]; simpl; [|done].
  by rewrite <- app_assoc.
Qed.

(** In [server.py] a failure of the provider is answered with the fixed
    text, which is recorded as the assistant turn, and the directive
    listens again. *)
Lemma server_fallback_recorded convs req :
  strip (default "" (SpeechResult req)) <> "" ->
  Server.gather convs req None
  = (<[Server.call_sid_of req :=
         Server.last10 (default [Server.system_turn] (convs !! Server.call_sid_of req)
                        ++ [Message "user" (default "" (SpeechResult req));
                            Message "assistant" Server.FALLBACK])]> convs,
     Document [Gather "/gather" 8 [Server.FALLBACK];
               Say "I did not hear anything. I will end this call now. Thank you for your time. Goodbye."]).
Proof.
  intros Hne. unfold Server.gather.
  apply is_empty_false in Hne. rewrite Hne.
  by rewrite generate_ai_reply_history.
Qed.

Lemma server_histories_bounded ws k h :
  (Server.serve ∅ ws).1 !! k = Some h -> length h <= 10.
Proof.
  revert k h.
  apply (server_serve_invariant
           (fun c => forall k h, c !! k = Some h -> length h <= 10)).
  - intros c w Hc k h. destruct w as [req|req completion]; simpl.
    + unfold Server.voice. simpl.
      destruct (c !! Server.call_sid_of req) eqn:Hsid; [apply Hc|].
      destruct (decide (Server.call_sid_of req = k)) as [->|Hk].
      * rewrite lookup_insert_eq. intros [= <-]. simpl. lia.
      * rewrite lookup_insert_ne by done. apply Hc.
    + unfold Server.gather.
      destruct (is_empty _); [simpl; apply Hc|].
      rewrite generate_ai_reply_history. simpl.
      destruct (decide (Server.call_sid_of req = k)) as [->|Hk].
      * rewrite lookup_insert_eq. intros [= <-]. apply last10_length.
      * rewrite lookup_insert_ne by done. apply Hc.
  - intros k h. by rewrite lookup_empty.
Qed.

Lemma forUI_histories_start_with_system ws k h :
  (ForUI.serve ∅ ws).1 !! k = Some h -> exists turns, h = ForUI.system_turn :: turns.
Proof.
  revert k h.
  apply (forUI_serve_invariant
           (fun c => forall k h, c !! k = Some h ->
                                 exists turns, h = ForUI.system_turn :: turns)).
  - intros c w Hc k h. destruct w as [req|req completion]; simpl.
    + unfold ForUI.voice. simpl.
      destruct (c !! CallSid req) eqn:Hsid; [apply Hc|].
      destruct (decide (CallSid req = k)) as [->|Hk].
      * rewrite lookup_insert_eq. intros [= <-]. by exists [].
      * rewrite lookup_insert_ne by done. apply Hc.
    + unfold ForUI.gather.
      destruct (is_empty _); simpl; [apply Hc|].
      destruct (c !! CallSid req) as [h0|] eqn:Hsid; simpl; [|apply Hc].
      destruct (Hc _ _ Hsid) as [turns ->].
      destruct completion as [text|]; simpl;
        (destruct (decide (CallSid req = k)) as [->|Hk];
         [rewrite lookup_insert_eq; intros [= <-]; eauto
         |rewrite lookup_insert_ne by done; apply Hc]).
  - intros k h. by rewrite lookup_empty.
Qed.

(** [forUI.py] never shortens a history: what a handler leaves under a
    key extends what was there. *)
Lemma forUI_handle_extends (c : gmap (option string) history) w k h :
  c !! k = Some h ->
  exists turns, (ForUI.handle c w).1 !! k = Some (h ++ turns).
Proof.
  intros Hk. destruct w as [req|req completion]; simpl.
  - unfold ForUI.voice. simpl. exists [].
    destruct (c !! CallSid req) eqn:Hsid; rewrite app_nil_r; [done|].
    rewrite lookup_insert_ne; [done|].
    intros Heq. rewrite Heq in Hsid. by rewrite Hk in Hsid.
  - unfold ForUI.gather; cbv zeta.
    destruct (is_empty _); simpl; [exists []; by rewrite app_nil_r|].
    destruct (c !! CallSid req) as [h0|] eqn:Hsid; simpl;
      [|exists []; by rewrite app_nil_r].
    destruct (decide (CallSid req = k)) as [<-|Hne].
    + rewrite Hk in Hsid. injection Hsid as <-.
      destruct completion as [text|]; simpl; rewrite lookup_insert_eq.
      * rewrite <- app_assoc. eauto.
      * eauto.
    + exists []. rewrite app_nil_r.
      destruct completion as [text|]; simpl; by rewrite lookup_insert_ne.
Qed.

Lemma forUI_serve_extends ws :
  forall (c : gmap (option string) history) k h,
    c !! k = Some h ->
    exists turns, (ForUI.serve c ws).1 !! k = Some (h ++ turns).
Proof.
  induction ws as [|w ws IH]; intros c k h Hk; simpl.
  - exists []. by rewrite app_nil_r.
  - destruct (forUI_handle_extends c w k h Hk) as [t1 H1].
    destruct (ForUI.handle c w) as [c1 r] eqn:Hw. simpl in H1.
    destruct (IH c1 k _ H1) as [t2 H2].
    destruct (ForUI.serve c1 ws) as [c2 rs] eqn:Hs. simpl in *.
    exists (t1 ++ t2). by rewrite app_assoc.
Qed.

(** C2, at the failing input.  [server.py], a call that is answered and
    five answered turns.  After the fourth the history holds nine turns
    and begins with the system turn.  The fifth makes eleven, of which
    [conversations[call_sid][-10:]] keeps the last ten: the turn that is
    dropped is the system turn, the history begins with a user turn and
    holds no system turn.
    [forUI.py] cuts nothing: after a call is answered and ten speech
    results, its history holds eleven turns. *)
Theorem trimming_evicts_system_turn :
  (map role <$> (Server.serve ∅ (take 5 five_turns)).1 !! "CA1")
  = Some ["system"; "user"; "assistant"; "user"; "assistant"; "user"; "assistant";
          "user"; "assistant"]
  /\ (map role <$> (Server.serve ∅ five_turns).1 !! "CA1")
  = Some ["user"; "assistant"; "user"; "assistant"; "user"; "assistant";
          "user"; "assistant"; "user"; "assistant"]
  /\ (head_is_system <$> (Server.serve ∅ five_turns).1 !! "CA1") = Some false
  /\ (forallb (fun m => negb (is_system m)) <$> (Server.serve ∅ five_turns).1 !! "CA1")
     = Some true
  /\ (length <$> (ForUI.serve ∅ ten_unanswered).1 !! Some "CA3") = Some 11.
Proof. vm_compute. done. Qed.

(** ** Silence *)

Lemma server_silence convs req completion :
  strip (default "" (SpeechResult req)) = "" ->
  Server.gather convs req completion = (convs, Document Server.REPROMPT).
Proof.
  intros H. unfold Server.gather; cbv zeta. apply is_empty_true in H. by rewrite H.
Qed.

Lemma forUI_silence convs req completion :
  strip (default "" (SpeechResult req)) = "" ->
  ForUI.gather convs req completion = (convs, Document ForUI.REPROMPT).
Proof.
  intros H. unfold ForUI.gather; cbv zeta. apply is_empty_true in H. by rewrite H.
Qed.

Lemma server_silences convs req completion n :
  strip (default "" (SpeechResult req)) = "" ->
  Server.serve convs (replicate n (OnGather req completion))
  = (convs, replicate n (Document Server.REPROMPT)).
Proof.
  intros H. induction n as [|n IH]; simpl; [done|].
  rewrite server_silence by done. by rewrite IH.
Qed.

Lemma forUI_silences convs req completion n :
  strip (default "" (SpeechResult req)) = "" ->
  ForUI.serve convs (replicate n (OnGather req completion))
  = (convs, replicate n (Document ForUI.REPROMPT)).
Proof.
  intros H. induction n as [|n IH]; simpl; [done|].
  rewrite forUI_silence by done. by rewrite IH.
Qed.

(** C3, at the failing input.  A call that is answered, then two silent
    results in a row: the second is answered like the first, with the
    re-prompt, in both programs; the goodbye is not said and the call
    listens again.  After the re-prompt of [server.py] the call is sent
    back to [/voice], whether the caller speaks or not, and [/voice]
    greets and listens; the re-prompt of [forUI.py] holds a [Gather],
    and speech is sent to [/gather]. *)
Theorem second_silence_reprompts :
  (Server.serve ∅ two_silences).2
  = [(Server.voice ∅ (Request (Some "CA1") None)).2;
     Document Server.REPROMPT; Document Server.REPROMPT]
  /\ (ForUI.serve ∅ two_silences).2
  = [(ForUI.voice ∅ (Request (Some "CA1") None)).2;
     Document ForUI.REPROMPT; Document ForUI.REPROMPT]
  /\ when_silent Server.REPROMPT = NextRequest "/voice"
  /\ when_spoken Server.REPROMPT = NextRequest "/voice"
  /\ (exists d, (Server.voice ∅ (Request (Some "CA1") None)).2 = Document d
                /\ when_spoken d = NextRequest "/gather"
                /\ when_silent d = NextRequest "/voice")
  /\ when_spoken ForUI.REPROMPT = NextRequest "/gather"
  /\ holds_gather_or_redirect (Document ForUI.REPROMPT) = true.
Proof.
  split; [by vm_compute|]. split; [by vm_compute|].
  split; [done|]. split; [done|]. split; [|done].
  eexists. split; [reflexivity|]. by split.
Qed.

(** ** Failure of the provider *)

(** In [forUI.py] the fixed text is spoken and the directive listens
    again, and the history ends with the user turn. *)
Lemma forUI_fallback_spoken convs req h :
  strip (default "" (SpeechResult req)) <> "" ->
  convs !! CallSid req = Some h ->
  ForUI.gather convs req None
  = (<[CallSid req := h ++ [Message "user" (strip (default "" (SpeechResult req)))]]> convs,
     Document [Gather "/gather" 5 [ForUI.FALLBACK];
               Say "I did not hear anything. Goodbye."]).
Proof.
  intros H Hh. unfold ForUI.gather; cbv zeta. apply is_empty_false in H. by rewrite H, Hh.
Qed.

(** C4, at the failing input.  [forUI.py], a call that is answered and a
    first answer for which the provider fails: the fixed text is spoken
    and the directive listens again, and the history is the system turn
    and the user turn, with no assistant turn. *)
Theorem forUI_fallback_not_recorded :
  (ForUI.serve ∅ provider_down).1 !! Some "CA2"
    = Some [ForUI.system_turn; Message "user" "yes I did"]
  /\ (ForUI.serve ∅ provider_down).2 !! 1
    = Some (Document [Gather "/gather" 5 [ForUI.FALLBACK];
                      Say "I did not hear anything. Goodbye."])
  /\ (Server.serve ∅ provider_down).1 !! "CA2"
    = Some [Server.system_turn; Message "user" "yes I did";
            Message "assistant" Server.FALLBACK].
Proof. vm_compute. done. Qed.

(** ** Alternation of the turns *)

(** C6, at the failing inputs.  [forUI.py], after an answer for which the
    provider fails and a second answer: two user turns follow each
    other, whether the second answer gets its reply or not.
    [server.py], after five answered turns: the history begins with a
    user turn, which nothing precedes. *)
Theorem alternation_broken :
  (map role <$> (ForUI.serve ∅ provider_down_then_up).1 !! Some "CA2")
    = Some ["system"; "user"; "user"; "assistant"]
  /\ (alternates <$> (ForUI.serve ∅ provider_down_then_up).1 !! Some "CA2")
    = Some false
  /\ (alternates <$> (Server.serve ∅ five_turns).1 !! "CA1") = Some false
  /\ (map role <$> (ForUI.serve ∅ provider_down_twice).1 !! Some "CA2")
    = Some ["system"; "user"; "user"]
  /\ (alternates <$> (ForUI.serve ∅ provider_down_twice).1 !! Some "CA2")
    = Some false.
Proof. vm_compute. done. Qed.

(** ** Requests without a call identifier, and calls never greeted *)



(** C10, counterexample.  A speech result of one space is not empty, and
    [forUI.py] answers it with the re-prompt also for a call [/voice]
    has never seen: the test is made on the stripped text, before the
    history is looked up.  No exception, status 200. *)
Lemma blank_speech_is_not_raised :
  default "" (SpeechResult (Request (Some "CA9") (Some " "))) <> ""
  /\ ForUI.gather ∅ (Request (Some "CA9") (Some " ")) (Some "ok")
     = (∅, Document ForUI.REPROMPT)
  /\ http_status (ForUI.gather ∅ (Request (Some "CA9") (Some " ")) (Some "ok")).2
     = 200%Z.
Proof. split; [discriminate|]. by vm_compute. Qed.

(** A speech result of one no-break space is blank as well: both
    programs re-prompt and store nothing. *)
Example no_break_space_is_silence :
  Server.gather ∅ (Request None (Some NBSP)) (Some "ok")
  = (∅, Document Server.REPROMPT)
  /\ ForUI.gather ∅ (Request (Some "CA9") (Some NBSP)) (Some "ok")
     = (∅, Document ForUI.REPROMPT).
Proof. by vm_compute. Qed.

(** C10, as the code has it.  In [forUI.py] a request to [/gather] whose
    speech result is not blank (not empty once stripped), for a call
    identifier the dictionary does not hold, raises [KeyError] at the
    append of the user turn: nothing catches it, Flask answers 500, and
    the dictionary is left as it was (no history is created). *)
Theorem gather_unseen_call_raises
    (convs : gmap (option string) history) (req : request)
    (completion : option string) :
  strip (default "" (SpeechResult req)) <> "" ->
  convs !! CallSid req = None ->
  ForUI.gather convs req completion = (convs, Uncaught KeyError)
  /\ http_status (ForUI.gather convs req completion).2 = 500%Z
  /\ holds_gather_or_redirect (ForUI.gather convs req completion).2 = false.
Proof.
  intros H Hk. unfold ForUI.gather; cbv zeta. apply is_empty_false in H. by rewrite H, Hk.
Qed.

Lemma gather_unseen_call_raises_witness :
  ForUI.gather ∅ (Request (Some "CA9") (Some "hello")) (Some "ok")
    = (∅, Uncaught KeyError)
  /\ http_status (ForUI.gather ∅ (Request (Some "CA9") (Some "hello")) (Some "ok")).2
     = 500%Z
  /\ holds_gather_or_redirect (ForUI.gather ∅ (Request (Some "CA9") (Some "hello")) (Some "ok")).2
     = false.
Proof.
  apply (gather_unseen_call_raises ∅ (Request (Some "CA9") (Some "hello")) (Some "ok")).
  - vm_compute. discriminate.
  - reflexivity.
Defined.

(* ===================================================================== *)
(** * Properties of [/api/schedule] and of the module initialisation *)
(* ===================================================================== *)





(** [server.py] serves only when the five variables are set and not
    empty. *)
Lemma server_startup_requires int_of env port :
  Server.startup_with int_of env = Serving port ->
  present (env !! "TWILIO_ACCOUNT_SID") = true
  /\ present (env !! "TWILIO_AUTH_TOKEN") = true
  /\ present (env !! "TWILIO_PHONE") = true
  /\ present (env !! "PUBLIC_URL") = true
  /\ present (env !! "GROQ_API_KEY") = true.
Proof.
  unfold Server.startup_with. destruct (read_port_with int_of env); [|done].
  destruct (forallb present _) eqn:Hall; simpl; [|done].
  intros _. simpl in Hall.
  repeat (apply andb_true_iff in Hall as [? Hall]). done.
Qed.

Lemma server_startup_refuses int_of env k :
  k ∈ ["TWILIO_ACCOUNT_SID"; "TWILIO_AUTH_TOKEN"; "TWILIO_PHONE"; "PUBLIC_URL";
       "GROQ_API_KEY"] ->
  env !! k = None ->
  exists e, Server.startup_with int_of env = Refused e.
Proof.
  intros Hk Hnone.
  destruct (Server.startup_with int_of env) as [port|e] eqn:Hs; [|eauto].
  apply server_startup_requires in Hs as (H1 & H2 & H3 & H4 & H5).
  set_unfold in Hk.
  destruct Hk as [->|[->|[->|[->|[->|[]]]]]];
    rewrite Hnone in *; discriminate.
Qed.

(** C8, at the failing input.  With the three telephony variables unset,
    the module body of [forUI.py] runs to the end and the program serves
    on the default port; [server.py] exits with status 1 on the same
    environment. *)
Theorem forUI_starts_without_telephony :
  env_without_telephony !! "TWILIO_ACCOUNT_SID" = None
  /\ env_without_telephony !! "TWILIO_AUTH_TOKEN" = None
  /\ env_without_telephony !! "TWILIO_PHONE" = None
  /\ ForUI.startup env_without_telephony = Serving 5000
  /\ Server.startup env_without_telephony = Refused (SystemExit 1)
  /\ Server.startup env_complete = Serving 5000.
Proof. vm_compute. done. Qed.

(** A port written with fullwidth digits, or after a no-break space, is
    read like the same port in ASCII. *)
Example port_in_unicode_digits :
  Server.startup (<["PORT" := "５０００"]> env_complete) = Serving 5000
  /\ ForUI.startup (<["PORT" := String.append NBSP "8080"]> env_complete)
     = Serving 8080
  /\ ForUI.startup (<["PORT" := String.append FULLWIDTH_FIVE "000"]> env_complete)
     = Serving 5000.
Proof. by vm_compute. Qed.

(* ===================================================================== *)
(** * Properties of the scheduled call dispatchers *)
(* ===================================================================== *)

(** ** The query *)

Lemma query_due_elem now_iso (s : store) id d :
  (id, d) ∈ query_due now_iso s <-> s !! id = Some d /\ is_due now_iso d = true.
Proof.
  unfold query_due. rewrite merge_sort_Permutation.
  rewrite list_elem_of_filter, elem_of_map_to_list. simpl.
  rewrite Is_true_true. tauto.
Qed.

Lemma query_due_NoDup now_iso (s : store) : NoDup (query_due now_iso s).*1.
Proof.
  unfold query_due. rewrite merge_sort_Permutation.
  eapply sublist_NoDup; [apply (NoDup_fst_map_to_list s)|].
  apply fmap_sublist, sublist_filter.
Qed.

Lemma is_due_pending now_iso (d : doc) :
  is_due now_iso d = true -> d !! "status" = Some (VStr "pending").
Proof.
  unfold is_due. destruct (d !! "status") as [[| | |st| |]|]; try done.
  destruct (d !! "scheduledAt") as [[| | |at_| |]|]; try done.
  intros H. apply andb_true_iff in H as [H _].
  apply String.eqb_eq in H. by subst.
Qed.

(** A document in the result of the query has the status [pending] in
    the collection. *)
Lemma query_due_status now_iso (s : store) p :
  p ∈ query_due now_iso s -> status_of s p.1 = Some (VStr "pending").
Proof.
  destruct p as [id d]. rewrite query_due_elem. intros [Hs Hd].
  unfold status_of. simpl. rewrite Hs. simpl. by eapply is_due_pending.
Qed.

Lemma query_due_skips now_iso (s : store) id :
  status_of s id <> Some (VStr "pending") -> id ∉ (query_due now_iso s).*1.
Proof.
  intros Hst Hin. apply list_elem_of_fmap in Hin as [p [-> Hp]].
  by apply query_due_status in Hp.
Qed.

Lemma query_due_ids now_iso (s : store) id :
  id ∈ (query_due now_iso s).*1
  <-> exists d, s !! id = Some d /\ is_due now_iso d = true.
Proof.
  split.
  - intros ([id' d] & -> & Hp)%list_elem_of_fmap.
    apply query_due_elem in Hp. eauto.
  - intros (d & Hd). apply list_elem_of_fmap. exists (id, d).
    split; [done|]. by apply query_due_elem.
Qed.

(** ** Counting and statuses *)

Lemma dispatches_app id t1 t2 :
  dispatches id (t1 ++ t2) = dispatches id t1 + dispatches id t2.
Proof. unfold dispatches. by rewrite List.filter_app, length_app. Qed.

Lemma dispatches_trigger id id' phone o :
  dispatches id [Trigger id' phone o] = if decide (id = id') then 1 else 0.
Proof.
  unfold dispatches. simpl. case_decide as H.
  - subst. by rewrite String.eqb_refl.
  - apply String.eqb_neq in H. by rewrite H.
Qed.


Lemma status_of_processed (s : store) id :
  status_of (alter (insert "status" (VStr "processed")) id s) id
  = (fun _ => VStr "processed") <$> s !! id.
Proof.
  unfold status_of. rewrite lookup_alter_eq.
  destruct (s !! id) as [d|]; simpl; [|done]. by rewrite lookup_insert_eq.
Qed.

Lemma dispatches_silent id t :
  forallb (fun e => negb (is_trigger_of id e)) t = true -> dispatches id t = 0.
Proof.
  unfold dispatches. induction t as [|e t IH]; simpl; [done|].
  intros [He Ht]%andb_true_iff. apply negb_true_iff in He. rewrite He. by apply IH.
Qed.

(** One call more in the trace, followed by prints and updates. *)
Lemma dispatches_call id t id' phone o rest :
  forallb (fun e => negb (is_trigger_of id e)) rest = true ->
  dispatches id (t ++ Trigger id' phone o :: rest)
  = dispatches id t + (if decide (id = id') then 1 else 0).
Proof.
  intros Hrest.
  change (Trigger id' phone o :: rest) with ([Trigger id' phone o] ++ rest).
  rewrite !dispatches_app, dispatches_trigger, (dispatches_silent id rest Hrest). lia.
Qed.

Lemma dispatches_log id t msg : dispatches id (t ++ [Log msg]) = dispatches id t.
Proof. rewrite dispatches_app. unfold dispatches at 2. simpl. lia. Qed.

Lemma call_log_silent id o rest :
  forallb (fun e => negb (is_trigger_of id e)) rest = true ->
  forallb (fun e => negb (is_trigger_of id e)) (call_log o ++ rest) = true.
Proof. by destruct o. Qed.





Lemma status_of_tasks (s s' : store) id :
  s' !! id = s !! id -> status_of s' id = status_of s id.
Proof. unfold status_of. by intros ->. Qed.

Lemma processed_idempotent (d : doc) : processed (processed d) = processed d.
Proof. unfold processed. apply insert_insert_eq. Qed.

Lemma processed_not_due now_iso (d : doc) : is_due now_iso (processed d) = false.
Proof.
  unfold is_due, processed. rewrite lookup_insert_eq.
  by destruct (_ !! "scheduledAt") as [[]|].
Qed.

Lemma processed_other_field (d : doc) f :
  f <> "status" -> processed d !! f = d !! f.
Proof. intros H. unfold processed. by rewrite lookup_insert_ne. Qed.

Lemma only_marks_refl (s : store) : only_marks s s.
Proof. intros id. by left. Qed.

Lemma only_marks_trans (s1 s2 s3 : store) :
  only_marks s1 s2 -> only_marks s2 s3 -> only_marks s1 s3.
Proof.
  intros H12 H23 id. destruct (H23 id) as [->| ->]; destruct (H12 id) as [->| ->].
  - by left.
  - by right.
  - by right.
  - right. destruct (s1 !! id) as [d|]; simpl; [|done].
    by rewrite processed_idempotent.
Qed.

Lemma only_marks_alter (s : store) id :
  only_marks s (alter (insert "status" (VStr "processed")) id s).
Proof.
  intros id'. destruct (decide (id = id')) as [->|Hne].
  - right. by rewrite lookup_alter_eq.
  - left. by rewrite lookup_alter_ne.
Qed.

Lemma callable_cons p l :
  callable (p :: l)
  = if truthy (py_get p.2 "phoneNumber") then p :: callable l else callable l.
Proof.
  unfold callable. destruct (truthy _) eqn:H.
  - by rewrite filter_cons_True.
  - rewrite filter_cons_False; [done|]. by rewrite H.
Qed.

Lemma callable_ids_subset l id : id ∈ (callable l).*1 -> id ∈ l.*1.
Proof.
  intros (p & -> & Hp)%list_elem_of_fmap.
  apply list_elem_of_filter in Hp as [_ Hp]. apply list_elem_of_fmap. eauto.
Qed.

Lemma callable_query now_iso (s : store) id :
  id ∈ (callable (query_due now_iso s)).*1
  <-> exists d, s !! id = Some d /\ is_due now_iso d = true
               /\ truthy (py_get d "phoneNumber") = true.
Proof.
  split.
  - intros ([id' d] & -> & Hp)%list_elem_of_fmap.
    apply list_elem_of_filter in Hp as [Ht Hp]. simpl in *.
    apply query_due_elem in Hp as [Hs Hd]. eauto.
  - intros (d & Hs & Hd & Ht). apply list_elem_of_fmap. exists (id, d).
    split; [done|]. apply list_elem_of_filter. split; [done|].
    by apply query_due_elem.
Qed.

Lemma only_marks_fields (s s' : store) id :
  only_marks s s' ->
  (s' !! id = None <-> s !! id = None)
  /\ (forall d, s !! id = Some d ->
         (s' !! id = Some d \/ s' !! id = Some (processed d))
         /\ forall d' f, s' !! id = Some d' -> f <> "status" -> d' !! f = d !! f).
Proof.
  intros H. destruct (H id) as [Heq|Heq]; rewrite Heq; split.
  - done.
  - intros d Hd. rewrite Hd. split; [by left|]. by intros d' f [= <-].
  - by destruct (s !! id).
  - intros d Hd. rewrite Hd. simpl. split; [by right|].
    intros d' f [= <-] Hf. by apply processed_other_field.
Qed.

Lemma leb_trans a b c :
  String.leb a b = true -> String.leb b c = true -> String.leb a c = true.
Proof.
  intros H1%Is_true_true H2%Is_true_true. apply Is_true_true.
  change (String.le a c). by transitivity b.
Qed.


(** ** The loop and the cycle of [server.py] *)

Section ServerDispatcher.

Variable telephony : nat -> outcome.
Variable firestore : nat -> bool.

(** The body of the loop, case by case. *)
Lemma server_dispatch_eq w p :
  Server.dispatch telephony firestore w p
  = if truthy (py_get p.2 "phoneNumber")
    then if firestore (S (requests w))
         then (called_and_marked p.1 (py_get p.2 "phoneNumber")
                 (telephony (requests w)) (call_log (telephony (requests w))) w, true)
         else (called_not_marked p.1 (py_get p.2 "phoneNumber")
                 (telephony (requests w)) (call_log (telephony (requests w))) w, false)
    else (w, true).
Proof.
  unfold Server.dispatch; cbv zeta.
  destruct (truthy _); [|done].
  unfold Server.make_call, mark_processed, asked, emit,
    called_and_marked, called_not_marked; cbv zeta.
  destruct (telephony (requests w)); cbn; destruct (firestore _); cbn;
    by rewrite <- ?app_assoc.
Qed.

(** The end of the stream. *)
Lemma server_dispatch_all_nil w :
  Server.dispatch_all telephony firestore [] w
  = if firestore (requests w)
    then asked w
    else emit (Log "Error in cron job") (asked w).
Proof.
  unfold Server.dispatch_all. cbn [for_each_streamed].
  by destruct (firestore (requests w)).
Qed.

(** One document of the stream, case by case. *)
Lemma server_dispatch_all_cons p rest w :
  Server.dispatch_all telephony firestore (p :: rest) w
  = if firestore (requests w)
    then if truthy (py_get p.2 "phoneNumber")
         then if firestore (S (S (requests w)))
              then Server.dispatch_all telephony firestore rest
                     (called_and_marked p.1 (py_get p.2 "phoneNumber")
                        (telephony (S (requests w)))
                        (call_log (telephony (S (requests w)))) (asked w))
              else called_not_marked p.1 (py_get p.2 "phoneNumber")
                     (telephony (S (requests w)))
                     (call_log (telephony (S (requests w))) ++ [Log "Error in cron job"])
                     (asked w)
         else Server.dispatch_all telephony firestore rest (asked w)
    else emit (Log "Error in cron job") (asked w).
Proof.
  unfold Server.dispatch_all. cbn [for_each_streamed].
  destruct (firestore (requests w)); [|done].
  rewrite server_dispatch_eq. cbn [requests asked].
  destruct (truthy _); [|done]. destruct (firestore _); [done|].
  unfold emit, called_not_marked. cbn. f_equal.
  by rewrite <- app_assoc.
Qed.

(** A document that the loop does not call is left as it is. *)
Lemma server_fold_untouched l id :
  (forall p, p ∈ l -> p.1 = id -> truthy (py_get p.2 "phoneNumber") = false) ->
  forall w,
    tasks (Server.dispatch_all telephony firestore l w) !! id = tasks w !! id
    /\ dispatches id (trace (Server.dispatch_all telephony firestore l w))
       = dispatches id (trace w).
Proof.
  induction l as [|p l IH]; intros Hl w.
  { rewrite server_dispatch_all_nil.
    destruct (firestore _); cbn [tasks trace emit asked];
      (split; [done|]); [done|apply dispatches_log]. }
  assert (forall q, q ∈ l -> q.1 = id -> truthy (py_get q.2 "phoneNumber") = false)
    as Hl' by (intros q Hq; apply Hl; by apply list_elem_of_further).
  rewrite server_dispatch_all_cons.
  destruct (firestore (requests w));
    [|cbn [tasks trace emit asked]; split; [done|apply dispatches_log]].
  destruct (truthy (py_get p.2 "phoneNumber")) eqn:Hp; [|by apply (IH Hl' (asked w))].
  assert (id <> p.1) as Hne.
  { intros ->. rewrite Hl in Hp; [done|apply list_elem_of_here|done]. }
  destruct (firestore _).
  - set (w1 := called_and_marked _ _ _ _ _).
    destruct (IH Hl' w1) as [-> ->].
    unfold w1, called_and_marked. cbn [tasks trace asked].
    rewrite lookup_alter_ne by done.
    rewrite dispatches_call by (by apply call_log_silent).
    rewrite decide_False by done. split; [done|lia].
  - unfold called_not_marked. cbn [tasks trace asked]. split; [done|].
    rewrite dispatches_call by (by apply call_log_silent).
    rewrite decide_False by done. lia.
Qed.

Lemma server_cycle_untouched now_iso w id :
  (forall d, tasks w !! id = Some d -> is_due now_iso d = true ->
             truthy (py_get d "phoneNumber") = false) ->
  tasks (Server.check_scheduled_calls telephony firestore now_iso w) !! id
    = tasks w !! id
  /\ dispatches id (trace (Server.check_scheduled_calls telephony firestore now_iso w))
     = dispatches id (trace w).
Proof.
  intros H. apply server_fold_untouched.
  intros [id' d'] Hin Heq. simpl in *. subst id'.
  apply query_due_elem in Hin as [Hs Hdue]. by eapply H.
Qed.

Lemma server_run_untouched nows id :
  forall w,
    (forall d now_iso, tasks w !! id = Some d -> is_due now_iso d = true ->
                       truthy (py_get d "phoneNumber") = false) ->
    tasks (Server.run telephony firestore nows w) !! id = tasks w !! id
    /\ dispatches id (trace (Server.run telephony firestore nows w))
       = dispatches id (trace w).
Proof.
  unfold Server.run.
  induction nows as [|now_iso nows IH]; intros w H; simpl; [done|].
  destruct (server_cycle_untouched now_iso w id) as [Ht Hd]; [by eauto|].
  destruct (IH (Server.check_scheduled_calls telephony firestore now_iso w))
    as [-> ->]; [by rewrite Ht|done].
Qed.

(** A document that is not pending is not called and not written. *)
Lemma server_run_frame nows id w :
  status_of (tasks w) id <> Some (VStr "pending") ->
  dispatches id (trace (Server.run telephony firestore nows w))
    = dispatches id (trace w)
  /\ status_of (tasks (Server.run telephony firestore nows w)) id
    = status_of (tasks w) id.
Proof.
  intros H. destruct (server_run_untouched nows id w) as [Ht Hd].
  - intros d now_iso Hs Hdue. destruct H. unfold status_of. rewrite Hs. simpl.
    by eapply is_due_pending.
  - split; [done|]. by apply status_of_tasks.
Qed.

Lemma server_fold_only_marks l :
  forall w, only_marks (tasks w) (tasks (Server.dispatch_all telephony firestore l w)).
Proof.
  induction l as [|p l IH]; intros w.
  { rewrite server_dispatch_all_nil. destruct (firestore _); apply only_marks_refl. }
  rewrite server_dispatch_all_cons.
  destruct (firestore (requests w)); [|apply only_marks_refl].
  destruct (truthy _); [|apply (IH (asked w))].
  destruct (firestore _); [|apply only_marks_refl].
  eapply only_marks_trans; [|apply IH]. apply (only_marks_alter (tasks w)).
Qed.

Lemma server_run_only_marks nows :
  forall w, only_marks (tasks w) (tasks (Server.run telephony firestore nows w)).
Proof.
  unfold Server.run.
  induction nows as [|now_iso nows IH]; intros w; simpl; [apply only_marks_refl|].
  eapply only_marks_trans; [apply server_fold_only_marks|apply IH].
Qed.



(** A loop over documents that have no phone number to call. *)
Lemma server_fold_skip l :
  Forall (fun p : string * doc => truthy (py_get p.2 "phoneNumber") = false) l ->
  forall w,
    tasks (Server.dispatch_all telephony firestore l w) = tasks w
    /\ (trace (Server.dispatch_all telephony firestore l w) = trace w
        \/ trace (Server.dispatch_all telephony firestore l w)
           = trace w ++ [Log "Error in cron job"]).
Proof.
  induction 1 as [|p l Hp _ IH]; intros w.
  - rewrite server_dispatch_all_nil.
    destruct (firestore _); cbn [tasks trace emit asked]; split; auto.
  - rewrite server_dispatch_all_cons, Hp.
    destruct (firestore _); [apply (IH (asked w))|].
    cbn [tasks trace emit asked]; split; auto.
Qed.

(** *** With a Firestore that serves every request *)

Hypothesis served : forall n, firestore n = true.

Lemma server_fold_tasks l :
  forall w id,
    tasks (Server.dispatch_all telephony firestore l w) !! id
    = if decide (id ∈ (callable l).*1)
      then processed <$> tasks w !! id
      else tasks w !! id.
Proof.
  induction l as [|p l IH]; intros w id.
  - rewrite server_dispatch_all_nil, served.
    rewrite decide_False; [done|]. apply not_elem_of_nil.
  - rewrite server_dispatch_all_cons, !served, callable_cons.
    destruct (truthy (py_get p.2 "phoneNumber")); [|apply (IH (asked w))].
    rewrite IH, fmap_cons. unfold called_and_marked. cbn [tasks asked].
    destruct (decide (id = p.1)) as [->|Hne].
    + rewrite lookup_alter_eq.
      rewrite (decide_True (P := p.1 ∈ p.1 :: (callable l).*1))
        by apply list_elem_of_here.
      case_decide; [|done].
      destruct (tasks w !! p.1) as [d|]; simpl; [|done].
      f_equal. apply processed_idempotent.
    + rewrite lookup_alter_ne by done.
      destruct (decide (id ∈ (callable l).*1)) as [Hin|Hnin].
      * rewrite decide_True; [done|]. by apply list_elem_of_further.
      * rewrite decide_False; [done|]. by intros [?|?]%elem_of_cons.
Qed.

Lemma server_fold_dispatches l :
  NoDup l.*1 ->
  forall w id,
    dispatches id (trace (Server.dispatch_all telephony firestore l w))
    = dispatches id (trace w) + (if decide (id ∈ (callable l).*1) then 1 else 0).
Proof.
  induction l as [|p l IH]; intros Hnd w id.
  - rewrite server_dispatch_all_nil, served, decide_False;
      [cbn [trace asked]; lia|]. apply not_elem_of_nil.
  - rewrite fmap_cons in Hnd. apply NoDup_cons in Hnd as [Hp Hnd].
    rewrite server_dispatch_all_cons, !served, callable_cons.
    destruct (truthy (py_get p.2 "phoneNumber")); [|by apply (IH Hnd (asked w))].
    rewrite IH by done. rewrite fmap_cons. unfold called_and_marked.
    cbn [trace asked].
    rewrite dispatches_call by (by apply call_log_silent).
    destruct (decide (id = p.1)) as [->|Hne].
    + rewrite (decide_True (P := p.1 ∈ p.1 :: (callable l).*1))
        by apply list_elem_of_here.
      rewrite decide_False; [lia|]. intros H. by apply callable_ids_subset in H.
    + destruct (decide (id ∈ (callable l).*1)) as [Hin|Hnin].
      * rewrite decide_True; [lia|]. by apply list_elem_of_further.
      * rewrite decide_False; [lia|]. by intros [?|?]%elem_of_cons.
Qed.





End ServerDispatcher.

(** ** The loop and the cycle of [forUI.py] *)

Section ForUIDispatcher.

Variable telephony : nat -> outcome.
Variable firestore : nat -> bool.

Lemma forUI_dispatch_all_nil w :
  ForUI.dispatch_all telephony firestore [] w = w.
Proof. done. Qed.

(** One document of the loop, case by case. *)
Lemma forUI_dispatch_all_cons p rest w :
  ForUI.dispatch_all telephony firestore (p :: rest) w
  = match p.2 !! "phoneNumber" with
    | None => emit (Log "Cron error") w
    | Some phone =>
        match telephony (requests w) with
        | Unreachable =>
            World (tasks w)
                  (trace w ++ [Trigger p.1 phone Unreachable; Log "Cron error"])
                  (S (requests w))
        | o =>
            if firestore (S (requests w))
            then ForUI.dispatch_all telephony firestore rest
                   (called_and_marked p.1 phone o [] w)
            else called_not_marked p.1 phone o [Log "Cron error"] w
        end
    end.
Proof.
  unfold ForUI.dispatch_all. cbn [for_each]. unfold ForUI.dispatch.
  destruct (p.2 !! "phoneNumber") as [phone|]; [|done].
  unfold ForUI.make_call, mark_processed, asked, emit,
    called_and_marked, called_not_marked; cbv zeta.
  destruct (telephony (requests w)); cbn; try destruct (firestore _); cbn;
    by rewrite <- ?app_assoc.
Qed.

Lemma forUI_cycle_eq now_iso w :
  ForUI.cron_cycle telephony firestore now_iso w
  = if firestore (requests w)
    then ForUI.dispatch_all telephony firestore (query_due now_iso (tasks w)) (asked w)
    else emit (Log "Cron error") (asked w).
Proof.
  unfold ForUI.cron_cycle, query. by destruct (firestore (requests w)).
Qed.

(** A document without a phone number is left as it is. *)
Lemma forUI_fold_untouched l id :
  (forall p, p ∈ l -> p.1 = id -> p.2 !! "phoneNumber" = None) ->
  forall w,
    tasks (ForUI.dispatch_all telephony firestore l w) !! id = tasks w !! id
    /\ dispatches id (trace (ForUI.dispatch_all telephony firestore l w))
       = dispatches id (trace w).
Proof.
  induction l as [|p l IH]; intros Hl w; [done|].
  rewrite forUI_dispatch_all_cons.
  destruct (p.2 !! "phoneNumber") as [phone|] eqn:Hp;
    [|cbn [tasks trace emit]; split; [done|apply dispatches_log]].
  assert (id <> p.1) as Hne.
  { intros ->. rewrite Hl in Hp; [done|apply list_elem_of_here|done]. }
  assert (forall q, q ∈ l -> q.1 = id -> q.2 !! "phoneNumber" = None) as Hl'
    by (intros q Hq; apply Hl; by apply list_elem_of_further).
  assert (forall o,
    tasks (if firestore (S (requests w))
           then ForUI.dispatch_all telephony firestore l
                  (called_and_marked p.1 phone o [] w)
           else called_not_marked p.1 phone o [Log "Cron error"] w) !! id
    = tasks w !! id
    /\ dispatches id
         (trace (if firestore (S (requests w))
                 then ForUI.dispatch_all telephony firestore l
                        (called_and_marked p.1 phone o [] w)
                 else called_not_marked p.1 phone o [Log "Cron error"] w))
       = dispatches id (trace w)) as Hgo.
  { intros o. destruct (firestore _).
    - destruct (IH Hl' (called_and_marked p.1 phone o [] w)) as [-> ->].
      unfold called_and_marked. cbn [tasks trace].
      rewrite lookup_alter_ne by done.
      rewrite dispatches_call, decide_False by done. split; [done|lia].
    - unfold called_not_marked. cbn [tasks trace]. split; [done|].
      rewrite dispatches_call, decide_False by done. lia. }
  destruct (telephony (requests w)); [apply Hgo|apply Hgo|].
  cbn [tasks trace]. split; [done|].
  rewrite dispatches_call, decide_False by done. lia.
Qed.

Lemma forUI_cycle_untouched now_iso w id :
  (forall d, tasks w !! id = Some d -> is_due now_iso d = true ->
             d !! "phoneNumber" = None) ->
  tasks (ForUI.cron_cycle telephony firestore now_iso w) !! id = tasks w !! id
  /\ dispatches id (trace (ForUI.cron_cycle telephony firestore now_iso w))
     = dispatches id (trace w).
Proof.
  intros H. rewrite forUI_cycle_eq. destruct (firestore (requests w)).
  - apply (forUI_fold_untouched _ id) with (w := asked w).
    intros [id' d'] Hin Heq. simpl in *. subst id'.
    apply query_due_elem in Hin as [Hs Hdue]. by eapply H.
  - cbn [tasks trace emit asked]. split; [done|apply dispatches_log].
Qed.

Lemma forUI_run_untouched nows id :
  forall w,
    (forall d now_iso, tasks w !! id = Some d -> is_due now_iso d = true ->
                       d !! "phoneNumber" = None) ->
    tasks (ForUI.run telephony firestore nows w) !! id = tasks w !! id
    /\ dispatches id (trace (ForUI.run telephony firestore nows w))
       = dispatches id (trace w).
Proof.
  unfold ForUI.run.
  induction nows as [|now_iso nows IH]; intros w H; simpl; [done|].
  destruct (forUI_cycle_untouched now_iso w id) as [Ht Hd]; [by eauto|].
  destruct (IH (ForUI.cron_cycle telephony firestore now_iso w))
    as [-> ->]; [by rewrite Ht|done].
Qed.


Lemma forUI_fold_only_marks l :
  forall w, only_marks (tasks w) (tasks (ForUI.dispatch_all telephony firestore l w)).
Proof.
  induction l as [|p l IH]; intros w; [apply only_marks_refl|].
  rewrite forUI_dispatch_all_cons.
  destruct (p.2 !! "phoneNumber") as [phone|]; [|apply only_marks_refl].
  destruct (telephony (requests w)); [..|apply only_marks_refl];
    (destruct (firestore _); [|apply only_marks_refl]);
    (eapply only_marks_trans; [|apply IH]); apply only_marks_alter.
Qed.

Lemma forUI_cycle_only_marks now_iso w :
  only_marks (tasks w) (tasks (ForUI.cron_cycle telephony firestore now_iso w)).
Proof.
  rewrite forUI_cycle_eq. destruct (firestore (requests w)).
  - apply (forUI_fold_only_marks _ (asked w)).
  - apply only_marks_refl.
Qed.

Lemma forUI_run_only_marks nows :
  forall w, only_marks (tasks w) (tasks (ForUI.run telephony firestore nows w)).
Proof.
  unfold ForUI.run.
  induction nows as [|now_iso nows IH]; intros w; simpl; [apply only_marks_refl|].
  eapply only_marks_trans; [apply forUI_cycle_only_marks|apply IH].
Qed.



(** The loop stops at a document without a phone number, if not
    before, and its last print is the one of the cycle. *)
Lemma forUI_abort_ignores_rest l1 p l2 :
  p.2 !! "phoneNumber" = None ->
  forall w,
    ForUI.dispatch_all telephony firestore (l1 ++ p :: l2) w
    = ForUI.dispatch_all telephony firestore (l1 ++ [p]) w.
Proof.
  intros Hp. induction l1 as [|a l1 IH]; intros w.
  - cbn [app]. rewrite !forUI_dispatch_all_cons. by rewrite Hp.
  - rewrite <- !app_comm_cons, !forUI_dispatch_all_cons.
    destruct (a.2 !! "phoneNumber"); [|done].
    destruct (telephony (requests w)); [..|done];
      (destruct (firestore _); [apply IH|done]).
Qed.

Lemma forUI_abort_logged l1 p :
  p.2 !! "phoneNumber" = None ->
  forall w,
    last (trace (ForUI.dispatch_all telephony firestore (l1 ++ [p]) w))
    = Some (Log "Cron error").
Proof.
  intros Hp. induction l1 as [|a l1 IH]; intros w.
  - cbn [app]. rewrite forUI_dispatch_all_cons, Hp. cbn [trace emit]. apply last_snoc.
  - rewrite <- app_comm_cons, forUI_dispatch_all_cons.
    destruct (a.2 !! "phoneNumber") as [phone|];
      [|cbn [trace emit]; apply last_snoc].
    assert (forall o, last (trace w ++ [Trigger a.1 phone o; Log "Cron error"])
                      = Some (Log "Cron error")) as Hlast.
    { intros o.
      change [Trigger a.1 phone o; Log "Cron error"]
        with ([Trigger a.1 phone o] ++ [Log "Cron error"]).
      rewrite app_assoc. apply last_snoc. }
    destruct (telephony (requests w)); [..|apply Hlast];
      (destruct (firestore _); [apply IH|apply Hlast]).
Qed.

(** *** With a Firestore that serves every request and a request to the
    provider that never raises *)

Hypothesis served : forall n, firestore n = true.
Hypothesis reached : forall n, telephony n <> Unreachable.

Lemma forUI_cycle_served now_iso w :
  ForUI.cron_cycle telephony firestore now_iso w
  = ForUI.dispatch_all telephony firestore (query_due now_iso (tasks w)) (asked w).
Proof. by rewrite forUI_cycle_eq, served. Qed.

Lemma forUI_dispatch_all_served p rest w phone :
  p.2 !! "phoneNumber" = Some phone ->
  ForUI.dispatch_all telephony firestore (p :: rest) w
  = ForUI.dispatch_all telephony firestore rest
      (called_and_marked p.1 phone (telephony (requests w)) [] w).
Proof.
  intros Hp. rewrite forUI_dispatch_all_cons, Hp, served.
  destruct (telephony (requests w)) eqn:Ho; [done|done|by apply reached in Ho].
Qed.

(** The documents of the loop that have a phone number, up to the first
    that has none. *)
Lemma forUI_fold_all l :
  Forall (fun p : string * doc => is_Some (p.2 !! "phoneNumber")) l ->
  NoDup l.*1 ->
  forall w id,
    tasks (ForUI.dispatch_all telephony firestore l w) !! id
    = (if decide (id ∈ l.*1) then processed <$> tasks w !! id else tasks w !! id)
    /\ dispatches id (trace (ForUI.dispatch_all telephony firestore l w))
       = dispatches id (trace w) + (if decide (id ∈ l.*1) then 1 else 0).
Proof.
  intros Hall. induction Hall as [|p l [phone Hp] _ IH]; intros Hnd w id.
  - rewrite !decide_False by apply not_elem_of_nil.
    rewrite forUI_dispatch_all_nil. split; [done|lia].
  - rewrite fmap_cons in Hnd. apply NoDup_cons in Hnd as [Hnp Hnd].
    rewrite (forUI_dispatch_all_served _ _ _ _ Hp), fmap_cons.
    destruct (IH Hnd (called_and_marked p.1 phone (telephony (requests w)) [] w) id)
      as [-> ->].
    unfold called_and_marked. cbn [tasks trace].
    rewrite dispatches_call by done.
    destruct (decide (id = p.1)) as [->|Hne].
    + rewrite lookup_alter_eq.
      rewrite !(decide_False (P := p.1 ∈ l.*1)) by done.
      rewrite !(decide_True (P := p.1 ∈ p.1 :: l.*1)) by apply list_elem_of_here.
      split; [done|lia].
    + rewrite lookup_alter_ne by done.
      destruct (decide (id ∈ l.*1)) as [Hin|Hnin].
      * rewrite !decide_True by (by apply list_elem_of_further). split; [done|lia].
      * rewrite !decide_False by (by intros [?|?]%elem_of_cons). split; [done|lia].
Qed.






End ForUIDispatcher.


(** ** At most one dispatch *)




(** ** A trigger that fails *)

(** C5, counterexample.  [server.py]: the provider rejects the call, the
    failure is printed and the task is marked [processed].  [forUI.py]:
    the request raises, the task stays [pending] and the next cycle
    dispatches it again. *)
Lemma failed_trigger_not_claimed :
  trace (Server.check_scheduled_calls (fun _ => Rejected) reliable NOW1 one_task)
    = [Trigger "task1" (VStr "+15551234567") Rejected;
       Log "Error making call"; Update "task1" "processed"]
  /\ status_of
       (tasks (Server.check_scheduled_calls (fun _ => Rejected) reliable NOW1 one_task))
       "task1" = Some (VStr "processed")
  /\ status_of (tasks (ForUI.cron_cycle (fun _ => Unreachable) reliable NOW1 one_task))
       "task1" = Some (VStr "pending")
  /\ trace (ForUI.run (fun _ => Unreachable) reliable [NOW1; NOW2] one_task)
    = [Trigger "task1" (VStr "+15551234567") Unreachable; Log "Cron error";
       Trigger "task1" (VStr "+15551234567") Unreachable; Log "Cron error"].
Proof. vm_compute. done. Qed.

(** C5, as the code has it.  There is no claimed status.  [server.py]:
    when the trigger fails for a task, [make_call] prints the failure
    and the loop goes on to the update.  If the update is served the
    task is [processed], neither pending nor claimed, and no later poll
    cycle dispatches it, whatever fails later; if the update raises,
    the loop is left, the cycle ends with its print, the task and the
    collection are left as they were and the documents that follow are
    not called.
    [forUI.py]: a request that raises ends the cycle, the failure is
    printed, and the collection is left as it was, so the task keeps
    the status it had; an error answer of the provider is not noticed,
    and the task is marked [processed] if the update is served, and
    left as it was, with the print of the cycle, if the update raises. *)
Theorem failed_trigger_outcomes
    (telephony : nat -> outcome) (firestore : nat -> bool)
    (w : world) (id : string) (d : doc) (rest : list (string * doc)) :
  (truthy (py_get d "phoneNumber") = true ->
   telephony (requests w) <> Initiated ->
   (firestore (S (requests w)) = true ->
    let w' := (Server.dispatch telephony firestore w (id, d)).1 in
    (Server.dispatch telephony firestore w (id, d)).2 = true
    /\ trace w' = trace w ++ [Trigger id (py_get d "phoneNumber") (telephony (requests w));
                              Log "Error making call"; Update id "processed"]
    /\ status_of (tasks w') id = (fun _ => VStr "processed") <$> tasks w !! id
    /\ status_of (tasks w') id <> Some (VStr "pending")
    /\ status_of (tasks w') id <> Some (VStr "claimed")
    /\ (forall later store nows,
          dispatches id (trace (Server.run later store nows w'))
          = dispatches id (trace w')))
   /\ (firestore (S (requests w)) = false ->
       Server.dispatch telephony firestore w (id, d)
       = (World (tasks w)
                (trace w ++ [Trigger id (py_get d "phoneNumber") (telephony (requests w));
                             Log "Error making call"])
                (S (S (requests w))), false)
       /\ (forall w0,
             asked w0 = w -> firestore (requests w0) = true ->
             Server.dispatch_all telephony firestore ((id, d) :: rest) w0
             = World (tasks w)
                     (trace w ++ [Trigger id (py_get d "phoneNumber")
                                    (telephony (requests w));
                                  Log "Error making call"; Log "Error in cron job"])
                     (S (S (requests w))))))
  /\ (forall phone,
        d !! "phoneNumber" = Some phone ->
        telephony (requests w) = Unreachable ->
        ForUI.dispatch_all telephony firestore ((id, d) :: rest) w
        = World (tasks w)
                (trace w ++ [Trigger id phone Unreachable; Log "Cron error"])
                (S (requests w)))
  /\ (forall phone,
        d !! "phoneNumber" = Some phone ->
        telephony (requests w) = Rejected ->
        (firestore (S (requests w)) = true ->
         ForUI.dispatch_all telephony firestore [(id, d)] w
         = World (alter (insert "status" (VStr "processed")) id (tasks w))
                 (trace w ++ [Trigger id phone Rejected; Update id "processed"])
                 (S (S (requests w))))
        /\ (firestore (S (requests w)) = false ->
            ForUI.dispatch_all telephony firestore ((id, d) :: rest) w
            = World (tasks w)
                    (trace w ++ [Trigger id phone Rejected; Log "Cron error"])
                    (S (S (requests w))))).
Proof.
  split; [|split].
  - intros Hphone Hfail. split.
    + intros Hfs w'.
      assert (Server.dispatch telephony firestore w (id, d)
              = (World (alter (insert "status" (VStr "processed")) id (tasks w))
                   (trace w ++ [Trigger id (py_get d "phoneNumber")
                                  (telephony (requests w));
                                Log "Error making call"; Update id "processed"])
                   (S (S (requests w))), true)) as Heq.
      { rewrite server_dispatch_eq. cbn [fst snd]. rewrite Hphone, Hfs.
        unfold called_and_marked. by destruct (telephony (requests w)). }
      unfold w'. rewrite Heq. cbn [fst snd tasks trace].
      assert (status_of (alter (insert "status" (VStr "processed")) id (tasks w)) id
              <> Some (VStr "pending")) as Hnp.
      { rewrite status_of_processed. by destruct (tasks w !! id). }
      split; [done|]. split; [done|]. split; [apply status_of_processed|].
      split; [done|]. split.
      * rewrite status_of_processed. by destruct (tasks w !! id).
      * intros later store nows. by apply server_run_frame.
    + intros Hfs. split.
      * rewrite server_dispatch_eq. cbn [fst snd]. rewrite Hphone, Hfs.
        unfold called_not_marked. by destruct (telephony (requests w)).
      * intros w0 Hw0 Hfetch. subst w. cbn [requests tasks trace asked] in *.
        rewrite server_dispatch_all_cons. cbn [fst snd].
        rewrite Hfetch, Hphone, Hfs. unfold called_not_marked.
        cbn [requests tasks trace asked].
        by destruct (telephony (S (requests w0))).
  - intros phone Hphone Ho. rewrite forUI_dispatch_all_cons. cbn [fst snd].
    by rewrite Hphone, Ho.
  - intros phone Hphone Ho. split; intros Hfs;
      rewrite forUI_dispatch_all_cons; cbn [fst snd];
      by rewrite Hphone, Ho, Hfs.
Qed.

Lemma failed_trigger_outcomes_witness :
  (status_of (tasks (Server.dispatch (fun _ => Rejected) reliable one_task
                       ("task1", due_task)).1) "task1"
   <> Some (VStr "claimed")
   /\ status_of (tasks (Server.dispatch (fun _ => Rejected) reliable one_task
                          ("task1", due_task)).1) "task1"
      <> Some (VStr "pending"))
  /\ Server.dispatch_all (fun _ => Rejected) third_request_fails [("task1", due_task)]
       one_task
     = World (tasks one_task)
             (trace one_task
              ++ [Trigger "task1" (VStr "+15551234567") Rejected;
                  Log "Error making call"; Log "Error in cron job"])
             (S (S (S (requests one_task))))
  /\ ForUI.dispatch_all (fun _ => Unreachable) reliable [("task1", due_task)] one_task
     = World (tasks one_task)
             (trace one_task
              ++ [Trigger "task1" (VStr "+15551234567") Unreachable; Log "Cron error"])
             (S (requests one_task))
  /\ ForUI.dispatch_all (fun _ => Rejected) reliable [("task1", due_task)] one_task
     = World (alter (insert "status" (VStr "processed")) "task1" (tasks one_task))
             (trace one_task
              ++ [Trigger "task1" (VStr "+15551234567") Rejected;
                  Update "task1" "processed"])
             (S (S (requests one_task))).
Proof.
  destruct (failed_trigger_outcomes (fun _ => Rejected) reliable one_task
              "task1" due_task []) as (Hs & _ & Hr).
  destruct (failed_trigger_outcomes (fun _ => Rejected) third_request_fails
              (asked one_task) "task1" due_task []) as (Hf & _ & _).
  destruct (failed_trigger_outcomes (fun _ => Unreachable) reliable one_task
              "task1" due_task []) as (_ & Hu & _).
  split; [|split; [|split]].
  - destruct Hs as [Hs _]; [reflexivity|discriminate|].
    destruct Hs as (_ & _ & _ & Hnp & Hnc & _); [reflexivity|]. by split.
  - destruct Hf as [_ Hf]; [reflexivity|discriminate|].
    destruct Hf as [_ Hf]; [reflexivity|]. apply (Hf one_task); reflexivity.
  - apply Hu; reflexivity.
  - destruct (Hr (VStr "+15551234567")) as [Hr' _]; [reflexivity..|].
    apply Hr'. reflexivity.
Defined.

(* ===================================================================== *)
(** * Further properties of the call session orchestrators *)
(* ===================================================================== *)

(** ** [/voice] on a call that is known *)

(** X1.  [server.py], [/voice]: the history of a call that the dictionary
    holds is left as it is, a call that it does not hold gets the system
    turn alone, no other entry changes, and serving the same request a
    second time changes nothing more. *)
Theorem server_voice_idempotent (c : gmap string history) (req : request) :
  (is_Some (c !! Server.call_sid_of req) -> (Server.voice c req).1 = c)
  /\ (c !! Server.call_sid_of req = None ->
      (Server.voice c req).1 = <[Server.call_sid_of req := [Server.system_turn]]> c)
  /\ Server.voice (Server.voice c req).1 req = Server.voice c req.
Proof.
  unfold Server.voice; cbv zeta. split; [|split].
  - intros [h Hh]. by rewrite Hh.
  - intros Hn. by rewrite Hn.
  - destruct (c !! Server.call_sid_of req) as [h|] eqn:Hh; simpl.
    + by rewrite Hh.
    + by rewrite lookup_insert_eq.
Qed.

Lemma server_voice_idempotent_witness :
  (Server.voice {[ "CA1" := [Server.system_turn; Message "user" "yes"] ]}
     (Request (Some "CA1") None)).1
  = {[ "CA1" := [Server.system_turn; Message "user" "yes"] ]}
  /\ (Server.voice ∅ (Request (Some "CA1") None)).1
     = <["CA1" := [Server.system_turn]]> ∅.
Proof.
  split.
  - apply (server_voice_idempotent
             {[ "CA1" := [Server.system_turn; Message "user" "yes"] ]}
             (Request (Some "CA1") None)).
    eexists. reflexivity.
  - apply (server_voice_idempotent ∅ (Request (Some "CA1") None)). reflexivity.
Defined.

(** X2.  [forUI.py], [/voice]: the same, with the key [None] for a
    request that has no [CallSid]. *)
Theorem forUI_voice_idempotent (c : gmap (option string) history) (req : request) :
  (is_Some (c !! CallSid req) -> (ForUI.voice c req).1 = c)
  /\ (c !! CallSid req = None ->
      (ForUI.voice c req).1 = <[CallSid req := [ForUI.system_turn]]> c)
  /\ ForUI.voice (ForUI.voice c req).1 req = ForUI.voice c req.
Proof.
  unfold ForUI.voice; cbv zeta. split; [|split].
  - intros [h Hh]. by rewrite Hh.
  - intros Hn. by rewrite Hn.
  - destruct (c !! CallSid req) as [h|] eqn:Hh; simpl.
    + by rewrite Hh.
    + by rewrite lookup_insert_eq.
Qed.

Lemma forUI_voice_idempotent_witness :
  (ForUI.voice {[ None := [ForUI.system_turn; Message "user" "yes"] ]}
     (Request None None)).1
  = {[ None := [ForUI.system_turn; Message "user" "yes"] ]}
  /\ (ForUI.voice ∅ (Request None None)).1 = <[None := [ForUI.system_turn]]> ∅.
Proof.
  split.
  - apply (forUI_voice_idempotent
             {[ None := [ForUI.system_turn; Message "user" "yes"] ]}
             (Request None None)).
    eexists. reflexivity.
  - apply (forUI_voice_idempotent ∅ (Request None None)). reflexivity.
Defined.

(** ** Calls do not touch each other *)

Lemma server_handle_other (c : gmap string history) w k :
  k <> Server.call_sid_of (request_of w) ->
  (Server.handle c w).1 !! k = c !! k.
Proof.
  intros Hk. destruct w as [req|req completion]; simpl in *.
  - unfold Server.voice; cbv zeta.
    destruct (c !! Server.call_sid_of req); simpl; [done|].
    by rewrite lookup_insert_ne.
  - unfold Server.gather; cbv zeta.
    destruct (is_empty _); [done|].
    rewrite generate_ai_reply_history. simpl. by rewrite lookup_insert_ne.
Qed.

Lemma forUI_handle_other (c : gmap (option string) history) w k :
  k <> CallSid (request_of w) ->
  (ForUI.handle c w).1 !! k = c !! k.
Proof.
  intros Hk. destruct w as [req|req completion]; simpl in *.
  - unfold ForUI.voice; cbv zeta.
    destruct (c !! CallSid req); simpl; [done|].
    by rewrite lookup_insert_ne.
  - unfold ForUI.gather; cbv zeta.
    destruct (is_empty _); [done|].
    destruct (c !! CallSid req); [|done].
    destruct completion; simpl; by rewrite lookup_insert_ne.
Qed.

(** X3.  [server.py]: the webhooks of other calls, however many and in
    whatever order, leave the history of a call as it is. *)
Theorem server_sessions_isolated (ws : list webhook) (c : gmap string history) k :
  Forall (fun w => Server.call_sid_of (request_of w) <> k) ws ->
  (Server.serve c ws).1 !! k = c !! k.
Proof.
  intros Hws. revert c. induction Hws as [|w ws Hw _ IH]; intros c; simpl; [done|].
  pose proof (server_handle_other c w k) as Hstep.
  destruct (Server.handle c w) as [c1 r]. simpl in Hstep.
  specialize (IH c1). destruct (Server.serve c1 ws) as [c2 rs]. simpl in *.
  rewrite IH. apply Hstep. by intros ->.
Qed.

Lemma server_sessions_isolated_witness :
  (Server.serve {[ "CA7" := [Server.system_turn] ]} five_turns).1 !! "CA7"
  = ({[ "CA7" := [Server.system_turn] ]} : gmap string history) !! "CA7".
Proof.
  apply (server_sessions_isolated five_turns {[ "CA7" := [Server.system_turn] ]} "CA7").
  repeat constructor; vm_compute; discriminate.
Defined.

(** X4.  [forUI.py]: the same. *)
Theorem forUI_sessions_isolated
    (ws : list webhook) (c : gmap (option string) history) k :
  Forall (fun w => CallSid (request_of w) <> k) ws ->
  (ForUI.serve c ws).1 !! k = c !! k.
Proof.
  intros Hws. revert c. induction Hws as [|w ws Hw _ IH]; intros c; simpl; [done|].
  pose proof (forUI_handle_other c w k) as Hstep.
  destruct (ForUI.handle c w) as [c1 r]. simpl in Hstep.
  specialize (IH c1). destruct (ForUI.serve c1 ws) as [c2 rs]. simpl in *.
  rewrite IH. apply Hstep. by intros ->.
Qed.

Lemma forUI_sessions_isolated_witness :
  (ForUI.serve {[ Some "CA7" := [ForUI.system_turn] ]} five_turns).1 !! Some "CA7"
  = ({[ Some "CA7" := [ForUI.system_turn] ]} : gmap (option string) history)
      !! Some "CA7".
Proof.
  apply (forUI_sessions_isolated five_turns
           {[ Some "CA7" := [ForUI.system_turn] ]} (Some "CA7")).
  repeat constructor; vm_compute; discriminate.
Defined.

(** ** Sessions are created lazily and never removed *)

(** X5.  Neither program ever removes a session: a key the dictionary
    holds is still there after any list of webhooks. *)
Theorem sessions_never_evicted (ws : list webhook)
    (cs : gmap string history) (cu : gmap (option string) history) :
  (forall k, is_Some (cs !! k) -> is_Some ((Server.serve cs ws).1 !! k))
  /\ (forall k, is_Some (cu !! k) -> is_Some ((ForUI.serve cu ws).1 !! k)).
Proof.
  split.
  - apply (server_serve_invariant
             (fun c => forall k, is_Some (cs !! k) -> is_Some (c !! k))); [|done].
    intros c w Hc k Hk. specialize (Hc k Hk).
    destruct (decide (k = Server.call_sid_of (request_of w))) as [->|Hne];
      [|by rewrite server_handle_other].
    destruct w as [req|req completion]; simpl in *.
    + unfold Server.voice; cbv zeta.
      destruct (c !! Server.call_sid_of req) eqn:Hh; simpl.
      * rewrite Hh. eauto.
      * rewrite lookup_insert_eq. eauto.
    + unfold Server.gather; cbv zeta.
      destruct (is_empty _); [done|].
      rewrite generate_ai_reply_history. simpl. rewrite lookup_insert_eq. eauto.
  - intros k [h Hk].
    destruct (forUI_serve_extends ws cu k h Hk) as [turns ->]. eauto.
Qed.

Lemma sessions_never_evicted_witness :
  is_Some ((Server.serve {[ "CA7" := [Server.system_turn] ]} five_turns).1 !! "CA7")
  /\ is_Some ((ForUI.serve {[ Some "CA7" := [ForUI.system_turn] ]} five_turns).1
               !! Some "CA7").
Proof.
  destruct (sessions_never_evicted five_turns
              {[ "CA7" := [Server.system_turn] ]}
              {[ Some "CA7" := [ForUI.system_turn] ]}) as [Hs Hu].
  split.
  - apply Hs. eexists. reflexivity.
  - apply Hu. eexists. reflexivity.
Defined.

(** X6.  [forUI.py]: only [/voice] creates a session.  A call for which
    no [/voice] is served has no history after any list of webhooks, so
    each of its speech results that is not blank is answered with the
    [KeyError]. *)
Theorem forUI_only_voice_creates
    (ws : list webhook) (c : gmap (option string) history) k :
  Forall (fun w => match w with
                   | OnVoice req => CallSid req <> k
                   | OnGather _ _ => True
                   end) ws ->
  c !! k = None ->
  (ForUI.serve c ws).1 !! k = None.
Proof.
  intros Hws. revert c. induction Hws as [|w ws Hw _ IH]; intros c Hk; simpl; [done|].
  assert ((ForUI.handle c w).1 !! k = None) as Hstep.
  { destruct w as [req|req completion]; simpl.
    - unfold ForUI.voice; cbv zeta.
      destruct (c !! CallSid req); simpl; [done|].
      by rewrite lookup_insert_ne.
    - unfold ForUI.gather; cbv zeta.
      destruct (is_empty _); [done|].
      destruct (c !! CallSid req) as [h|] eqn:Hh; [|done].
      assert (CallSid req <> k) by (intros Heq; rewrite Heq in Hh; by rewrite Hk in Hh).
      destruct completion; simpl; by rewrite lookup_insert_ne. }
  destruct (ForUI.handle c w) as [c1 r]. simpl in Hstep.
  specialize (IH c1 Hstep). by destruct (ForUI.serve c1 ws) as [c2 rs].
Qed.

Lemma forUI_only_voice_creates_witness :
  (ForUI.serve ∅ [speech_of "CA9" "hello" (Some "ok"); voice_of "CA1";
                  speech_of "CA9" "hello again" None]).1 !! Some "CA9" = None.
Proof.
  apply (forUI_only_voice_creates
           [speech_of "CA9" "hello" (Some "ok"); voice_of "CA1";
            speech_of "CA9" "hello again" None] ∅ (Some "CA9")).
  - repeat constructor. discriminate.
  - reflexivity.
Defined.

(** ** The shape of the histories of [server.py] *)

Lemma is_assistant_not_user m : is_assistant m = true -> is_user m = false.
Proof.
  unfold is_assistant, is_user. intros H%String.eqb_eq. by rewrite H.
Qed.

Lemma is_user_not_system m : is_user m = true -> is_system m = false.
Proof.
  unfold is_system, is_user. intros H%String.eqb_eq. by rewrite H.
Qed.

Lemma is_user_not_assistant m : is_user m = true -> is_assistant m = false.
Proof.
  unfold is_assistant, is_user. intros H%String.eqb_eq. by rewrite H.
Qed.

Lemma paired_inv h :
  paired h = true ->
  h = [] \/ exists u a t, h = u :: a :: t /\ is_user u = true
                          /\ is_assistant a = true /\ paired t = true.
Proof.
  destruct h as [|u [|a t]]; simpl; [by left|done|].
  intros H. apply andb_true_iff in H as [H Ht].
  apply andb_true_iff in H as [Hu Ha]. right. by exists u, a, t.
Qed.

Lemma paired_facts n :
  forall h, length h <= n -> paired h = true ->
    (exists k, length h = 2 * k)
    /\ answered h = true
    /\ (forall h', paired (h ++ h') = paired h').
Proof.
  induction n as [|n IH]; intros h Hn Hp.
  - destruct h; [|simpl in Hn; lia]. split; [by exists 0|]. split; done.
  - destruct (paired_inv h Hp) as [->|(u & a & t & -> & Hu & Ha & Ht)].
    { split; [by exists 0|]. split; done. }
    simpl in Hn. destruct (IH t ltac:(lia) Ht) as ([k Hk] & Hans & Happ).
    split; [exists (S k); simpl; lia|]. split.
    + simpl. rewrite Hu, Ha, (is_assistant_not_user a Ha). simpl.
      by destruct t.
    + intros h'. simpl. by rewrite Hu, Ha, Happ.
Qed.

Lemma paired_even h : paired h = true -> exists k, length h = 2 * k.
Proof. intros H. by apply (paired_facts (length h) h). Qed.

Lemma paired_answered h : paired h = true -> answered h = true.
Proof. intros H. by apply (paired_facts (length h) h). Qed.

Lemma paired_app h h' : paired h = true -> paired (h ++ h') = paired h'.
Proof. intros H. by apply (paired_facts (length h) h). Qed.

Lemma server_shaped_step h x y :
  server_shaped h ->
  server_shaped (Server.last10 (h ++ [Message "user" x; Message "assistant" y])).
Proof.
  assert (paired [Message "user" x; Message "assistant" y] = true) as Hxy by done.
  intros [(t & -> & Ht & Hlen)|[Hp Hlen]]; unfold Server.last10.
  - destruct (paired_even t Ht) as [k Hk]. simpl in Hlen.
    rewrite length_app. cbn [length app].
    destruct (decide (k = 4)) as [->|Hk4].
    + right. replace (S (length t) + 2 - 10) with 1 by lia. cbn [drop]; rewrite ?drop_0.
      split; [by rewrite paired_app|]. rewrite length_app. simpl. lia.
    + left. replace (S (length t) + 2 - 10) with 0 by lia. cbn [drop]; rewrite ?drop_0.
      eexists. split; [done|]. split; [by rewrite paired_app|].
      cbn [length]. rewrite length_app. simpl. lia.
  - destruct (paired_inv h Hp) as [->|(u & a & t & -> & Hu & Ha & Ht)];
      [simpl in Hlen; lia|].
    right. rewrite length_app. cbn [length app] in *.
    replace (S (S (length t)) + 2 - 10) with 2 by lia. cbn [drop]; rewrite ?drop_0.
    split; [by rewrite paired_app|]. rewrite length_app. simpl. lia.
Qed.

Lemma server_histories_shaped ws k h :
  (Server.serve ∅ ws).1 !! k = Some h -> server_shaped h.
Proof.
  revert k h.
  apply (server_serve_invariant
           (fun c => forall k h, c !! k = Some h -> server_shaped h)).
  - assert (server_shaped [Server.system_turn]) as Hinit.
    { left. exists []. simpl. split; [done|]. split; [done|lia]. }
    intros c w Hc k h. destruct w as [req|req completion]; simpl.
    + unfold Server.voice. simpl.
      destruct (c !! Server.call_sid_of req) eqn:Hsid; [apply Hc|].
      destruct (decide (Server.call_sid_of req = k)) as [->|Hk].
      * rewrite lookup_insert_eq. by intros [= <-].
      * rewrite lookup_insert_ne by done. apply Hc.
    + unfold Server.gather.
      destruct (is_empty _); [simpl; apply Hc|].
      rewrite generate_ai_reply_history. simpl.
      destruct (decide (Server.call_sid_of req = k)) as [->|Hk].
      * rewrite lookup_insert_eq. intros [= <-]. apply server_shaped_step.
        destruct (c !! k) as [h0|] eqn:Hh0; simpl; [by eapply Hc|done].
      * rewrite lookup_insert_ne by done. apply Hc.
  - intros k h. by rewrite lookup_empty.
Qed.

(** X7.  [server.py]: after any list of webhooks a history is never
    empty; while it has fewer than ten turns it begins with the system
    turn and has an odd number of turns; once it has ten it is five
    pairs of a user turn and an assistant turn, without the system turn;
    and in every case each user turn is immediately followed by an
    assistant turn. *)
Theorem server_history_shape (ws : list webhook) k h :
  (Server.serve ∅ ws).1 !! k = Some h ->
  1 <= length h <= 10
  /\ answered h = true
  /\ (length h < 10 ->
      head_is_system h = true /\ exists n, length h = 2 * n + 1)
  /\ (length h = 10 -> head_is_system h = false /\ paired h = true).
Proof.
  intros Hk. destruct (server_histories_shaped ws k h Hk)
    as [(t & -> & Ht & Hlen)|[Hp Hlen]].
  - destruct (paired_even t Ht) as [n Hn]. cbn [length] in *.
    split; [lia|]. split.
    + change (answered (Server.system_turn :: t)) with (answered t).
      by apply paired_answered.
    + split; [|lia]. intros _. split; [done|]. exists n. lia.
  - split; [lia|]. split; [by apply paired_answered|].
    split; [lia|]. intros _. split; [|done].
    destruct (paired_inv h Hp) as [->|(u & a & t & -> & Hu & _)];
      [simpl in Hlen; lia|].
    simpl. by apply is_user_not_system.
Qed.

Lemma server_history_shape_witness :
  exists h,
    (Server.serve ∅ five_turns).1 !! "CA1" = Some h
    /\ answered h = true
    /\ (length h = 10 -> head_is_system h = false /\ paired h = true).
Proof.
  eexists. split; [vm_compute; reflexivity|].
  refine ((fun H => conj (proj1 (proj2 H)) (proj2 (proj2 (proj2 H))))
            (server_history_shape five_turns "CA1" _ _)).
  vm_compute. reflexivity.
Defined.

(** ** The shape of the histories of [forUI.py] *)

Lemma replies_to_user_snoc h m prev :
  replies_to_user prev (h ++ [m])
  = replies_to_user prev h
    && (if is_assistant m
        then match from_option Some prev (last h) with
             | Some p => is_user p
             | None => false
             end
        else true).
Proof.
  revert prev. induction h as [|a t IH]; intros prev; simpl.
  - by rewrite andb_true_r.
  - rewrite IH, <- andb_assoc. do 2 f_equal.
    destruct t as [|b t']; [done|]. rewrite last_cons_cons.
    destruct (last (b :: t')) eqn:Hl; [done|]. by apply last_None in Hl.
Qed.

Lemma forUI_shaped_user h x :
  forUI_shaped h -> forUI_shaped (h ++ [Message "user" x]).
Proof.
  intros (turns & -> & Hroles & Hrep).
  exists (turns ++ [Message "user" x]). split; [done|]. split.
  - apply Forall_app. split; [done|]. by repeat constructor.
  - rewrite replies_to_user_snoc, Hrep. done.
Qed.

Lemma forUI_shaped_pair h x y :
  forUI_shaped h ->
  forUI_shaped ((h ++ [Message "user" x]) ++ [Message "assistant" y]).
Proof.
  intros H. destruct (forUI_shaped_user h x H) as (turns & Heq & Hroles & Hrep).
  rewrite Heq. exists (turns ++ [Message "assistant" y]). split; [done|]. split.
  - apply Forall_app. split; [done|]. by repeat constructor.
  - rewrite replies_to_user_snoc.
    rewrite <- Heq, Hrep, last_snoc. done.
Qed.

Lemma forUI_histories_shaped ws k h :
  (ForUI.serve ∅ ws).1 !! k = Some h -> forUI_shaped h.
Proof.
  revert k h.
  apply (forUI_serve_invariant
           (fun c => forall k h, c !! k = Some h -> forUI_shaped h)).
  - intros c w Hc k h. destruct w as [req|req completion]; simpl.
    + unfold ForUI.voice. simpl.
      destruct (c !! CallSid req) eqn:Hsid; [apply Hc|].
      destruct (decide (CallSid req = k)) as [->|Hk].
      * rewrite lookup_insert_eq. intros [= <-]. exists []. by repeat split.
      * rewrite lookup_insert_ne by done. apply Hc.
    + unfold ForUI.gather; cbv zeta.
      destruct (is_empty _); [simpl; apply Hc|].
      destruct (c !! CallSid req) as [h0|] eqn:Hsid; [|simpl; apply Hc].
      pose proof (Hc _ _ Hsid) as Hh0.
      destruct completion as [text|]; simpl;
        (destruct (decide (CallSid req = k)) as [->|Hk];
         [rewrite lookup_insert_eq; intros [= <-]
         |rewrite lookup_insert_ne by done; apply Hc]).
      * by apply forUI_shaped_pair.
      * by apply forUI_shaped_user.
  - intros k h. by rewrite lookup_empty.
Qed.

(** X8.  [forUI.py]: after any list of webhooks a history is the system
    turn followed by user and assistant turns only, and every assistant
    turn comes immediately after a user turn (a reply is recorded only
    right after the speech it answers). *)
Theorem forUI_history_shape (ws : list webhook) k h :
  (ForUI.serve ∅ ws).1 !! k = Some h ->
  replies_to_user None h = true
  /\ exists turns,
       h = ForUI.system_turn :: turns
       /\ Forall (fun m => is_user m || is_assistant m = true) turns.
Proof.
  intros Hk. destruct (forUI_histories_shaped ws k h Hk) as (turns & -> & Hroles & Hrep).
  split; [done|]. by exists turns.
Qed.

Lemma forUI_history_shape_witness :
  exists h,
    (ForUI.serve ∅ provider_down_twice).1 !! Some "CA2" = Some h
    /\ replies_to_user None h = true
    /\ exists turns,
         h = ForUI.system_turn :: turns
         /\ Forall (fun m => is_user m || is_assistant m = true) turns.
Proof.
  eexists. split; [vm_compute; reflexivity|].
  apply (forUI_history_shape provider_down_twice (Some "CA2")).
  vm_compute. reflexivity.
Defined.

(** ** What is recorded as a user turn *)

(** X9.  After any list of webhooks no user turn is blank, a blank being
    any character [str.strip()] removes.  [server.py] records the speech
    result as it was received, with the blanks around it; [forUI.py]
    records it stripped, so its user turns neither begin nor end with a
    blank. *)
Theorem user_turns_not_blank (ws : list webhook) :
  (forall k h m, (Server.serve ∅ ws).1 !! k = Some h -> m ∈ h ->
                 is_user m = true -> strip (content m) <> "")
  /\ (forall k h m, (ForUI.serve ∅ ws).1 !! k = Some h -> m ∈ h ->
                    is_user m = true ->
                    content m <> "" /\ strip (content m) = content m).
Proof.
  split.
  - intros k h m Hk. revert m.
    cut (Forall (fun m => is_user m = true -> strip (content m) <> "") h);
      [intros HF m Hm; exact (proj1 (Forall_forall _ _) HF m Hm)|].
    revert k h Hk.
    apply (server_serve_invariant
             (fun c => forall k h, c !! k = Some h ->
                Forall (fun m => is_user m = true -> strip (content m) <> "") h)).
    + intros c w Hc k h. destruct w as [req|req completion]; simpl.
      * unfold Server.voice. simpl.
        destruct (c !! Server.call_sid_of req) eqn:Hsid; [apply Hc|].
        destruct (decide (Server.call_sid_of req = k)) as [->|Hk].
        -- rewrite lookup_insert_eq. intros [= <-]. by repeat constructor.
        -- rewrite lookup_insert_ne by done. apply Hc.
      * unfold Server.gather.
        destruct (is_empty _) eqn:He; [simpl; apply Hc|].
        apply is_empty_false in He.
        rewrite generate_ai_reply_history. simpl.
        destruct (decide (Server.call_sid_of req = k)) as [->|Hk];
          [|rewrite lookup_insert_ne by done; apply Hc].
        rewrite lookup_insert_eq. intros [= <-].
        unfold Server.last10. apply Forall_drop, Forall_app. split.
        -- destruct (c !! k) as [h0|] eqn:Hh0; simpl; [by eapply Hc|].
           by repeat constructor.
        -- by repeat constructor.
    + intros k h. by rewrite lookup_empty.
  - intros k h m Hk. revert m.
    cut (Forall (fun m => is_user m = true ->
                          content m <> "" /\ strip (content m) = content m) h);
      [intros HF m Hm; exact (proj1 (Forall_forall _ _) HF m Hm)|].
    revert k h Hk.
    apply (forUI_serve_invariant
             (fun c => forall k h, c !! k = Some h ->
                Forall (fun m => is_user m = true ->
                                 content m <> "" /\ strip (content m) = content m) h)).
    + intros c w Hc k h. destruct w as [req|req completion]; simpl.
      * unfold ForUI.voice. simpl.
        destruct (c !! CallSid req) eqn:Hsid; [apply Hc|].
        destruct (decide (CallSid req = k)) as [->|Hk].
        -- rewrite lookup_insert_eq. intros [= <-]. by repeat constructor.
        -- rewrite lookup_insert_ne by done. apply Hc.
      * unfold ForUI.gather; cbv zeta.
        destruct (is_empty _) eqn:He; [simpl; apply Hc|].
        apply is_empty_false in He.
        destruct (c !! CallSid req) as [h0|] eqn:Hsid; [|simpl; apply Hc].
        pose proof (Hc _ _ Hsid) as Hh0.
        assert (Forall (fun m => is_user m = true ->
                   content m <> "" /\ strip (content m) = content m)
                  (h0 ++ [Message "user" (strip (default "" (SpeechResult req)))]))
          as Hu.
        { apply Forall_app. split; [done|]. constructor; [|constructor].
          intros _. simpl. split; [done|apply strip_idempotent]. }
        destruct completion as [text|]; simpl;
          (destruct (decide (CallSid req = k)) as [->|Hk];
           [rewrite lookup_insert_eq; intros [= <-]
           |rewrite lookup_insert_ne by done; apply Hc]).
        -- apply Forall_app. split; [done|]. by repeat constructor.
        -- done.
    + intros k h. by rewrite lookup_empty.
Qed.

Lemma user_turns_not_blank_witness :
  strip (content (Message "user" "  a phone ")) <> ""
  /\ content (Message "user" "a phone") <> ""
  /\ strip (content (Message "user" "a phone")) = content (Message "user" "a phone").
Proof.
  destruct (user_turns_not_blank
              [voice_of "CA1"; speech_of "CA1" "  a phone " None]) as [Hs Hu].
  split.
  - apply (Hs "CA1" [Server.system_turn; Message "user" "  a phone ";
                     Message "assistant" Server.FALLBACK]).
    + vm_compute. reflexivity.
    + right. left.
    + reflexivity.
  - apply (Hu (Some "CA1") [ForUI.system_turn; Message "user" "a phone"]).
    + vm_compute. reflexivity.
    + right. left.
    + reflexivity.
Defined.

(** ** What the handlers answer *)

(** X10.  [server.py] answers every webhook with a document (never an
    exception) whose requests stay on the two routes [/gather] and
    [/voice].  What the call does next depends on the caller.  After
    [/voice]: speech is sent to [/gather]; after a silence the notice is
    said and the call is sent to [/voice] again.  After a blank speech
    result: the re-prompt, and the call is sent to [/voice] either way.
    After a speech result that is not blank: speech is sent to
    [/gather]; after a silence the goodbye is said and the call is hung
    up. *)
Theorem server_next_steps (c : gmap string history) (w : webhook) :
  http_status (Server.handle c w).2 = 200%Z
  /\ on_routes (Server.handle c w).2 = true
  /\ exists d,
       (Server.handle c w).2 = Document d
       /\ match w with
          | OnVoice _ =>
              when_spoken d = NextRequest "/gather"
              /\ when_silent d = NextRequest "/voice"
          | OnGather req _ =>
              if is_empty (strip (default "" (SpeechResult req)))
              then d = Server.REPROMPT
                   /\ when_spoken d = NextRequest "/voice"
                   /\ when_silent d = NextRequest "/voice"
              else when_spoken d = NextRequest "/gather"
                   /\ when_silent d = HangUp
                   /\ last d = Some (Say "I did not hear anything. I will end this call now. Thank you for your time. Goodbye.")
          end.
Proof.
  destruct w as [req|req completion]; simpl.
  - split; [done|]. split; [done|]. eexists. split; [reflexivity|]. by split.
  - unfold Server.gather; cbv zeta.
    destruct (is_empty _).
    + split; [done|]. split; [done|]. eexists. split; [reflexivity|]. by split.
    + rewrite generate_ai_reply_history. cbn [snd].
      split; [done|]. split; [done|]. eexists. split; [reflexivity|]. by split.
Qed.

(** X11.  [forUI.py] answers a webhook either with a document that
    listens again and stays on the route [/gather], or with the
    [KeyError]; the [KeyError] comes exactly for a [/gather] whose speech
    result is not blank and whose call the dictionary does not hold. *)
Theorem forUI_listens_or_raises (c : gmap (option string) history) (w : webhook) :
  (http_status (ForUI.handle c w).2 = 200%Z
   /\ holds_gather_or_redirect (ForUI.handle c w).2 = true
   /\ on_routes (ForUI.handle c w).2 = true)
  \/ ((ForUI.handle c w).2 = Uncaught KeyError
      /\ (ForUI.handle c w).1 = c
      /\ exists req completion,
           w = OnGather req completion
           /\ strip (default "" (SpeechResult req)) <> ""
           /\ c !! CallSid req = None).
Proof.
  destruct w as [req|req completion]; simpl; [by left|].
  unfold ForUI.gather; cbv zeta.
  destruct (is_empty _) eqn:He; [by left|].
  apply is_empty_false in He.
  destruct (c !! CallSid req) as [h|] eqn:Hh.
  - left. by destruct completion.
  - right. split; [done|]. split; [done|]. by exists req, completion.
Qed.

(** X12.  [server.py], [/gather] with a speech result that is not blank:
    the history of the call ends with the user turn, holding the speech
    as it was received, and the assistant turn, holding the reply; the
    reply is the stripped text of the provider, or the fixed text when
    the provider failed, and it is the text the document says. *)
Theorem server_reply_is_last_turn
    (c : gmap string history) (req : request) (completion : option string) :
  strip (default "" (SpeechResult req)) <> "" ->
  let reply := match completion with
               | Some text => strip text
               | None => Server.FALLBACK
               end in
  (exists older,
      (Server.gather c req completion).1 !! Server.call_sid_of req
      = Some (older ++ [Message "user" (default "" (SpeechResult req));
                        Message "assistant" reply])
      /\ length older <= 8)
  /\ (Server.gather c req completion).2
     = Document [Gather "/gather" 8 [reply];
                 Say "I did not hear anything. I will end this call now. Thank you for your time. Goodbye."].
Proof.
  intros Hne reply. unfold Server.gather; cbv zeta.
  apply is_empty_false in Hne. rewrite Hne.
  rewrite generate_ai_reply_history. simpl. split; [|done].
  rewrite lookup_insert_eq. unfold Server.last10.
  set (h0 := default [Server.system_turn] (c !! Server.call_sid_of req)).
  exists (drop (length h0 + 2 - 10) h0). split.
  - f_equal. rewrite length_app. simpl length.
    rewrite drop_app_le by lia. done.
  - rewrite length_drop. lia.
Qed.

Lemma server_reply_is_last_turn_witness :
  exists older,
    (Server.gather ∅ (Request (Some "CA1") (Some " yes ")) None).1 !! "CA1"
    = Some (older ++ [Message "user" " yes "; Message "assistant" Server.FALLBACK])
    /\ length older <= 8.
Proof.
  refine (proj1 (server_reply_is_last_turn ∅ (Request (Some "CA1") (Some " yes ")) None _)).
  vm_compute. discriminate.
Defined.

(* ===================================================================== *)
(** * Further properties of the scheduled call dispatchers *)
(* ===================================================================== *)

(** ** A cycle of [server.py] in which no request to Firestore raises *)

(** One poll cycle of [server.py], document by document. *)
Lemma server_cycle_doc
    (telephony : nat -> outcome) (firestore : nat -> bool)
    (now_iso : string) (w : world) (id : string) (d : doc) :
  (forall n, firestore n = true) ->
  tasks w !! id = Some d ->
  let w' := Server.check_scheduled_calls telephony firestore now_iso w in
  (is_due now_iso d = true -> truthy (py_get d "phoneNumber") = true ->
   dispatches id (trace w') = S (dispatches id (trace w))
   /\ tasks w' !! id = Some (processed d))
  /\ (is_due now_iso d = false \/ truthy (py_get d "phoneNumber") = false ->
      dispatches id (trace w') = dispatches id (trace w)
      /\ tasks w' !! id = Some d).
Proof.
  intros Hfs Hd w'. unfold w', Server.check_scheduled_calls.
  rewrite server_fold_tasks, server_fold_dispatches by (done || apply query_due_NoDup).
  rewrite Hd. split.
  - intros Hdue Hphone. rewrite !decide_True; [split; [lia|done]|..];
      apply callable_query; eauto.
  - intros Hno.
    assert (id ∉ (callable (query_due now_iso (tasks w))).*1) as Hnin.
    { intros (d' & Hd' & Hdue & Hphone)%callable_query. simplify_eq.
      destruct Hno; congruence. }
    rewrite !decide_False by done. split; [lia|done].
Qed.

(** X13.  [server.py], one poll cycle in which no request to Firestore
    raises, document by document.  A pending document that is due and
    has a phone number Python takes for true is called exactly once and
    comes out with the status [processed] and its other fields as they
    were.  A due document without such a phone number, a document that
    is not due, and a document that is not pending are left exactly as
    they were and are not called. *)
Theorem server_cycle_effect
    (telephony : nat -> outcome) (firestore : nat -> bool)
    (now_iso : string) (w : world) (id : string) (d : doc) :
  (forall n, firestore n = true) ->
  tasks w !! id = Some d ->
  let w' := Server.check_scheduled_calls telephony firestore now_iso w in
  (is_due now_iso d = true -> truthy (py_get d "phoneNumber") = true ->
   dispatches id (trace w') = S (dispatches id (trace w))
   /\ tasks w' !! id = Some (processed d))
  /\ (is_due now_iso d = false \/ truthy (py_get d "phoneNumber") = false ->
      dispatches id (trace w') = dispatches id (trace w)
      /\ tasks w' !! id = Some d).
Proof. exact (server_cycle_doc telephony firestore now_iso w id d). Qed.

Lemma server_cycle_effect_witness :
  dispatches "task1"
    (trace (Server.check_scheduled_calls (fun _ => Rejected) reliable NOW1 one_task))
  = S (dispatches "task1" (trace one_task))
  /\ tasks (Server.check_scheduled_calls (fun _ => Rejected) reliable NOW1 one_task)
       !! "task1"
     = Some (processed due_task).
Proof.
  apply (server_cycle_effect (fun _ => Rejected) reliable NOW1 one_task "task1" due_task);
    reflexivity.
Defined.

(** X14.  [server.py]: after a poll cycle in which no request to
    Firestore raised, a second poll at the same time calls nobody and
    writes nothing, whatever the provider and Firestore do then: what is
    still due has no phone number to call.  The collection is as the
    first cycle left it, and the trace is the same, or the same with the
    print of the second cycle when reading the result of its query
    raised. *)
Theorem server_cycle_idempotent
    (telephony later : nat -> outcome) (firestore store : nat -> bool)
    (now_iso : string) (w : world) :
  (forall n, firestore n = true) ->
  let w1 := Server.check_scheduled_calls telephony firestore now_iso w in
  let w2 := Server.check_scheduled_calls later store now_iso w1 in
  tasks w2 = tasks w1
  /\ (trace w2 = trace w1 \/ trace w2 = trace w1 ++ [Log "Error in cron job"])
  /\ (forall id, dispatches id (trace w2) = dispatches id (trace w1)).
Proof.
  intros Hfs w1 w2.
  destruct (server_fold_skip later store (query_due now_iso (tasks w1))) with w1
    as [Ht Htr].
  { apply Forall_forall. intros [id d'] Hin. simpl.
    apply query_due_elem in Hin as [Hs Hdue].
    unfold w1, Server.check_scheduled_calls in Hs.
    rewrite server_fold_tasks in Hs by done.
    destruct (decide (id ∈ (callable (query_due now_iso (tasks w))).*1)) as [Hin|Hnin].
    - destruct (tasks w !! id) as [d|]; simplify_eq/=.
      by rewrite processed_not_due in Hdue.
    - destruct (truthy (py_get d' "phoneNumber")) eqn:Ht; [|done].
      destruct Hnin. apply callable_query. eauto. }
  fold (Server.check_scheduled_calls later store now_iso w1) in Ht, Htr.
  fold w2 in Ht, Htr.
  split; [done|]. split; [done|].
  intros id. destruct Htr as [-> | ->]; [done|apply dispatches_log].
Qed.

Lemma server_cycle_idempotent_witness :
  tasks (Server.check_scheduled_calls (fun _ => Initiated) (fun _ => false) NOW1
           (Server.check_scheduled_calls (fun _ => Rejected) reliable NOW1 one_task))
  = tasks (Server.check_scheduled_calls (fun _ => Rejected) reliable NOW1 one_task)
  /\ forall id,
       dispatches id
         (trace (Server.check_scheduled_calls (fun _ => Initiated) (fun _ => false) NOW1
                   (Server.check_scheduled_calls (fun _ => Rejected) reliable NOW1
                      one_task)))
       = dispatches id
           (trace (Server.check_scheduled_calls (fun _ => Rejected) reliable NOW1
                     one_task)).
Proof.
  destruct (server_cycle_idempotent (fun _ => Rejected) (fun _ => Initiated)
              reliable (fun _ => false) NOW1 one_task) as (Ht & _ & Hd).
  - reflexivity.
  - split; [exact Ht|exact Hd].
Defined.

(** X15.  [server.py]: a document whose phone number is missing or is a
    value Python takes for false is never called and never updated,
    whatever polls are run and whatever fails in them: it stays in the
    collection as it is, so it is found due again at every poll. *)
Theorem server_task_without_phone_stays
    (telephony : nat -> outcome) (firestore : nat -> bool)
    (nows : list string) (w : world) (id : string) (d : doc) :
  tasks w !! id = Some d ->
  truthy (py_get d "phoneNumber") = false ->
  tasks (Server.run telephony firestore nows w) !! id = Some d
  /\ dispatches id (trace (Server.run telephony firestore nows w))
     = dispatches id (trace w).
Proof.
  intros Hd Hphone.
  destruct (server_run_untouched telephony firestore nows id w) as [Ht Hdis].
  - intros d' now_iso Hd' _. by simplify_eq.
  - by rewrite Ht.
Qed.

Lemma server_task_without_phone_stays_witness :
  tasks (Server.run (fun _ => Initiated) reliable [NOW1; NOW2]
           (World {[ "task2" := delete "phoneNumber" due_task ]} [] 0)) !! "task2"
  = Some (delete "phoneNumber" due_task)
  /\ dispatches "task2"
       (trace (Server.run (fun _ => Initiated) reliable [NOW1; NOW2]
                 (World {[ "task2" := delete "phoneNumber" due_task ]} [] 0)))
     = dispatches "task2" [].
Proof.
  apply (server_task_without_phone_stays (fun _ => Initiated) reliable [NOW1; NOW2]
           (World {[ "task2" := delete "phoneNumber" due_task ]} [] 0)
           "task2" (delete "phoneNumber" due_task)); reflexivity.
Defined.

(** ** The loop of [forUI.py] stops at the first exception *)

(** X16.  [forUI.py]: a document without the field [phoneNumber] is never
    called and never updated, whatever polls are run and whatever fails
    in them; it stays in the collection as it is. *)
Theorem forUI_task_without_phone_stays
    (telephony : nat -> outcome) (firestore : nat -> bool)
    (nows : list string) (w : world) (id : string) (d : doc) :
  tasks w !! id = Some d ->
  d !! "phoneNumber" = None ->
  tasks (ForUI.run telephony firestore nows w) !! id = Some d
  /\ dispatches id (trace (ForUI.run telephony firestore nows w))
     = dispatches id (trace w).
Proof.
  intros Hd Hphone.
  destruct (forUI_run_untouched telephony firestore nows id w) as [Ht Hdis].
  - intros d' now_iso Hd' _. by simplify_eq.
  - by rewrite Ht.
Qed.

Lemma forUI_task_without_phone_stays_witness :
  tasks (ForUI.run (fun _ => Initiated) reliable [NOW1; NOW2]
           (World {[ "task2" := delete "phoneNumber" due_task ]} [] 0)) !! "task2"
  = Some (delete "phoneNumber" due_task)
  /\ dispatches "task2"
       (trace (ForUI.run (fun _ => Initiated) reliable [NOW1; NOW2]
                 (World {[ "task2" := delete "phoneNumber" due_task ]} [] 0)))
     = dispatches "task2" [].
Proof.
  apply (forUI_task_without_phone_stays (fun _ => Initiated) reliable [NOW1; NOW2]
           (World {[ "task2" := delete "phoneNumber" due_task ]} [] 0)
           "task2" (delete "phoneNumber" due_task)); reflexivity.
Defined.

(** X17.  [forUI.py]: a due document without the field [phoneNumber]
    stops the poll cycle.  The cycle ends with the print of the
    exception, and the documents that come after it in the result of
    the query are neither called nor updated in that cycle.  When the
    query is served, the cycle is the loop over the documents up to
    that one; when the query raises, the cycle is the print alone. *)
Theorem forUI_missing_phone_stops_cycle
    (telephony : nat -> outcome) (firestore : nat -> bool)
    (now_iso : string) (w : world) (id : string) (d : doc) :
  (id, d) ∈ query_due now_iso (tasks w) ->
  d !! "phoneNumber" = None ->
  let w' := ForUI.cron_cycle telephony firestore now_iso w in
  last (trace w') = Some (Log "Cron error")
  /\ exists before after,
       query_due now_iso (tasks w) = before ++ (id, d) :: after
       /\ w' = (if firestore (requests w)
                then ForUI.dispatch_all telephony firestore (before ++ [(id, d)]) (asked w)
                else emit (Log "Cron error") (asked w))
       /\ forall p, p ∈ after ->
             tasks w' !! p.1 = tasks w !! p.1
             /\ dispatches p.1 (trace w') = dispatches p.1 (trace w).
Proof.
  intros Hin Hphone w'.
  destruct (list_elem_of_split _ _ Hin) as (before & after & Hq).
  assert (w' = if firestore (requests w)
               then ForUI.dispatch_all telephony firestore (before ++ [(id, d)]) (asked w)
               else emit (Log "Cron error") (asked w)) as Hw'.
  { unfold w'. rewrite forUI_cycle_eq, Hq.
    destruct (firestore (requests w)); [|done].
    by apply forUI_abort_ignores_rest. }
  split.
  - rewrite Hw'. destruct (firestore (requests w)).
    + by apply forUI_abort_logged.
    + cbn [trace emit]. apply last_snoc.
  - exists before, after. split; [done|]. split; [done|].
    intros p Hp. rewrite Hw'. destruct (firestore (requests w)).
    + apply (forUI_fold_untouched telephony firestore _ p.1) with (w := asked w).
      intros q Hq' Heq. exfalso.
      pose proof (query_due_NoDup now_iso (tasks w)) as Hnd.
      rewrite Hq in Hnd.
      replace (before ++ (id, d) :: after) with ((before ++ [(id, d)]) ++ after) in Hnd
        by (by rewrite <- app_assoc).
      rewrite fmap_app in Hnd. apply NoDup_app in Hnd as (_ & Hdisj & _).
      apply (Hdisj q.1).
      * apply list_elem_of_fmap. eauto.
      * rewrite Heq. apply list_elem_of_fmap. eauto.
    + cbn [tasks trace emit asked]. split; [done|apply dispatches_log].
Qed.

Lemma forUI_missing_phone_stops_cycle_witness :
  last (trace (ForUI.cron_cycle (fun _ => Initiated) reliable NOW1
                 (World {[ "task2" := delete "phoneNumber" due_task ]} [] 0)))
  = Some (Log "Cron error").
Proof.
  refine (proj1 (forUI_missing_phone_stops_cycle (fun _ => Initiated) reliable NOW1
                   (World {[ "task2" := delete "phoneNumber" due_task ]} [] 0)
                   "task2" (delete "phoneNumber" due_task) _ _)).
  - apply query_due_elem. split; reflexivity.
  - reflexivity.
Defined.

(** ** A cycle of [forUI.py] in which nothing fails *)

(** One poll cycle of [forUI.py] without an exception, document by document. *)
Lemma forUI_cycle_doc
    (telephony : nat -> outcome) (firestore : nat -> bool)
    (now_iso : string) (w : world) (id : string) (d : doc) :
  (forall n, firestore n = true) ->
  (forall n, telephony n <> Unreachable) ->
  (forall id' d', tasks w !! id' = Some d' -> is_due now_iso d' = true ->
                  is_Some (d' !! "phoneNumber")) ->
  tasks w !! id = Some d ->
  let w' := ForUI.cron_cycle telephony firestore now_iso w in
  (is_due now_iso d = true ->
   dispatches id (trace w') = S (dispatches id (trace w))
   /\ tasks w' !! id = Some (processed d))
  /\ (is_due now_iso d = false ->
      dispatches id (trace w') = dispatches id (trace w)
      /\ tasks w' !! id = Some d).
Proof.
  intros Hfs Hup Hphones Hd w'. unfold w'. rewrite forUI_cycle_served by done.
  destruct (forUI_fold_all telephony firestore Hfs Hup (query_due now_iso (tasks w)))
    with (asked w) id as [-> ->].
  { apply Forall_forall. intros [id' d'] Hin. simpl.
    apply query_due_elem in Hin as [Hs Hdue]. eauto. }
  { apply query_due_NoDup. }
  cbn [tasks trace asked]. rewrite Hd. split.
  - intros Hdue. rewrite !decide_True; [split; [lia|done]|..];
      apply query_due_ids; eauto.
  - intros Hno.
    assert (id ∉ (query_due now_iso (tasks w)).*1) as Hnin.
    { intros (d' & Hd' & Hdue)%query_due_ids. simplify_eq. congruence. }
    rewrite !decide_False by done. split; [lia|done].
Qed.

(** X18.  [forUI.py], one poll cycle in which no request to Firestore
    raises (the query and the updates), the request to the provider
    never raises and every due document has the field [phoneNumber]:
    each pending document that is due is called exactly once, whatever
    its phone number is (an empty one too), and comes out with the
    status [processed]; every other document is left as it was. *)
Theorem forUI_cycle_without_failure
    (telephony : nat -> outcome) (firestore : nat -> bool)
    (now_iso : string) (w : world) (id : string) (d : doc) :
  (forall n, firestore n = true) ->
  (forall n, telephony n <> Unreachable) ->
  (forall id' d', tasks w !! id' = Some d' -> is_due now_iso d' = true ->
                  is_Some (d' !! "phoneNumber")) ->
  tasks w !! id = Some d ->
  let w' := ForUI.cron_cycle telephony firestore now_iso w in
  (is_due now_iso d = true ->
   dispatches id (trace w') = S (dispatches id (trace w))
   /\ tasks w' !! id = Some (processed d))
  /\ (is_due now_iso d = false ->
      dispatches id (trace w') = dispatches id (trace w)
      /\ tasks w' !! id = Some d).
Proof. exact (forUI_cycle_doc telephony firestore now_iso w id d). Qed.

Lemma forUI_cycle_without_failure_witness :
  dispatches "task1" (trace (ForUI.cron_cycle (fun _ => Rejected) reliable NOW1 one_task))
  = S (dispatches "task1" (trace one_task))
  /\ tasks (ForUI.cron_cycle (fun _ => Rejected) reliable NOW1 one_task) !! "task1"
     = Some (processed due_task).
Proof.
  apply (forUI_cycle_without_failure (fun _ => Rejected) reliable NOW1 one_task
           "task1" due_task).
  - reflexivity.
  - intros n. discriminate.
  - intros id' d' Hd' _. unfold one_task in Hd'. cbn [tasks] in Hd'.
    apply lookup_singleton_Some in Hd' as [_ <-]. by exists (VStr "+15551234567").
  - reflexivity.
  - reflexivity.
Defined.

(** ** The dispatchers write the status and nothing else *)

(** X19.  Whatever polls are run and whatever fails in them, neither
    dispatcher creates or deletes a document, and a document comes out
    as it was or with its status set to [processed]: the phone number,
    the time and every other field are never written. *)
Theorem dispatchers_only_set_status
    (telephony : nat -> outcome) (firestore : nat -> bool)
    (nows : list string) (w : world) (id : string) :
  let ws := Server.run telephony firestore nows w in
  let wu := ForUI.run telephony firestore nows w in
  (tasks ws !! id = None <-> tasks w !! id = None)
  /\ (tasks wu !! id = None <-> tasks w !! id = None)
  /\ (forall d, tasks w !! id = Some d ->
         (tasks ws !! id = Some d \/ tasks ws !! id = Some (processed d))
         /\ (tasks wu !! id = Some d \/ tasks wu !! id = Some (processed d))
         /\ (forall d' f, tasks ws !! id = Some d' -> f <> "status" -> d' !! f = d !! f)
         /\ (forall d' f, tasks wu !! id = Some d' -> f <> "status" -> d' !! f = d !! f)).
Proof.
  intros ws wu.
  destruct (only_marks_fields (tasks w) (tasks ws) id
              (server_run_only_marks telephony firestore nows w)) as [Hs1 Hs2].
  destruct (only_marks_fields (tasks w) (tasks wu) id
              (forUI_run_only_marks telephony firestore nows w)) as [Hu1 Hu2].
  split; [done|]. split; [done|].
  intros d Hd. destruct (Hs2 d Hd) as [? ?]. destruct (Hu2 d Hd) as [? ?]. done.
Qed.

Lemma dispatchers_only_set_status_witness :
  (forall d' f,
      tasks (Server.run (fun _ => Initiated) reliable [NOW1; NOW2] one_task) !! "task1"
      = Some d' ->
      f <> "status" -> d' !! f = due_task !! f)
  /\ (forall d' f,
      tasks (ForUI.run (fun _ => Initiated) reliable [NOW1; NOW2] one_task) !! "task1"
      = Some d' ->
      f <> "status" -> d' !! f = due_task !! f).
Proof.
  destruct (dispatchers_only_set_status (fun _ => Initiated) reliable [NOW1; NOW2]
              one_task "task1") as (_ & _ & H).
  destruct (H due_task) as (_ & _ & Hs & Hu); [reflexivity|].
  split; assumption.
Defined.

(** ** Due once, due later *)

(** X20.  A document that the query returns at some time is returned at
    every later time (times are compared as strings), as long as it is
    not updated: a poll that comes late does not lose it. *)
Theorem due_stays_due (now_iso later : string) (s : store) (id : string) (d : doc) :
  (id, d) ∈ query_due now_iso s ->
  String.leb now_iso later = true ->
  (id, d) ∈ query_due later s.
Proof.
  rewrite !query_due_elem. intros [Hs Hdue] Hle. split; [done|].
  unfold is_due in *.
  destruct (d !! "status") as [[| | |st| |]|]; try done.
  destruct (d !! "scheduledAt") as [[| | |at_| |]|]; try done.
  apply andb_true_iff in Hdue as [Hst Hat]. rewrite Hst. simpl.
  by eapply leb_trans.
Qed.

Lemma due_stays_due_witness : ("task1", due_task) ∈ query_due NOW2 (tasks one_task).
Proof.
  apply (due_stays_due NOW1 NOW2 (tasks one_task) "task1" due_task).
  - apply query_due_elem. split; reflexivity.
  - reflexivity.
Defined.

(** ** From [/api/schedule] to the call *)





(** ** Starting the two programs on one environment *)

(** X23.  An environment on which [server.py] starts is one on which
    [forUI.py] starts, on the same port; and a [PORT] that [int] does
    not accept stops both with [ValueError], whatever else is set.
    This holds whatever strings [int] accepts. *)
Theorem server_start_implies_forUI_start
    (int_of : string -> option Z) (env : gmap string string) :
  (forall port, Server.startup_with int_of env = Serving port ->
                ForUI.startup_with int_of env = Serving port)
  /\ (forall s, env !! "PORT" = Some s -> int_of s = None ->
      Server.startup_with int_of env = Refused ValueError
      /\ ForUI.startup_with int_of env = Refused ValueError).
Proof.
  split.
  - intros port Hs.
    destruct (server_startup_requires int_of env port Hs) as (_ & _ & _ & Hurl & Hkey).
    unfold Server.startup_with in Hs. unfold ForUI.startup_with.
    destruct (read_port_with int_of env) as [p|]; [|done].
    destruct (forallb present _); simpl in Hs; [|done].
    rewrite Hurl. simpl.
    destruct (env !! "GOOGLE_APPLICATION_CREDENTIALS"); [|done].
    unfold present in Hkey. destruct (env !! "GROQ_API_KEY"); [done|done].
  - intros s Hport Hint.
    unfold Server.startup_with, ForUI.startup_with, read_port_with.
    by rewrite Hport, Hint.
Qed.

Lemma server_start_implies_forUI_start_witness :
  ForUI.startup env_complete = Serving 5000
  /\ Server.startup (<["PORT" := "80a"]> env_complete) = Refused ValueError
  /\ ForUI.startup (<["PORT" := "80a"]> env_complete) = Refused ValueError.
Proof.
  destruct (server_start_implies_forUI_start py_int env_complete) as [Hs _].
  destruct (server_start_implies_forUI_start py_int (<["PORT" := "80a"]> env_complete))
    as [_ Hp].
  split.
  - apply Hs. reflexivity.
  - apply (Hp "80a"); reflexivity.
Defined.
